(** * metric_stream: the KPI data contracts of [src/schemas]

    A shallow embedding of [src/schemas/core.py] and
    [src/schemas/responses.py].  The Python code works on parsed JSON
    (dictionaries of untyped values), so the embedding carries a type of
    dynamic values; dictionaries keep their insertion order and are
    association lists with pairwise distinct keys; an exception is a value of
    [exn] returned through [result]. *)

From Stdlib Require Import String List ZArith Bool Lia PrimFloat DecimalString.
Import ListNotations.
Open Scope string_scope.
Open Scope list_scope.

(** ** Python values *)

Module Py.

#[warnings="-register-all"]
Inductive value : Type :=
| VNone
| VBool (b : bool)
| VInt (z : Z)
| VFloat (f : float)
| VStr (s : string)
| VList (l : list value)
| VDict (d : list (string * value)).

(** A [dict] with [str] keys, in insertion order. *)
Definition dict : Type := list (string * value).

(** The exceptions the modelled code can raise. *)
Inductive exn : Type :=
| ValueError (msg : string)
| KeyError (key : string)
| TypeError
| AttributeError.

Inductive result (A : Type) : Type :=
| Ok (a : A)
| Raise (e : exn).
Arguments Ok {A} a.
Arguments Raise {A} e.

Definition bind {A B : Type} (c : result A) (k : A -> result B) : result B :=
  match c with
  | Ok a => k a
  | Raise e => Raise e
  end.

Declare Scope py_scope.
Delimit Scope py_scope with py.
Notation "x <- c ;; k" := (bind c (fun x => k))
  (at level 61, c at next level, right associativity) : py_scope.
Open Scope py_scope.

Definition is_ok {A : Type} (r : result A) : bool :=
  match r with Ok _ => true | Raise _ => false end.

(** [bool(v)]: the truth value Python tests in [if v] and [a or b]. *)
Definition truthy (v : value) : bool :=
  match v with
  | VNone => false
  | VBool b => b
  | VInt z => negb (Z.eqb z 0)
  | VFloat f => negb (PrimFloat.eqb f 0%float)
  | VStr s => negb (String.eqb s "")
  | VList l => match l with [] => false | _ :: _ => true end
  | VDict d => match d with [] => false | _ :: _ => true end
  end.

(** [v is None] *)
Definition is_none (v : value) : bool :=
  match v with VNone => true | _ => false end.

(** [a or b] *)
Definition py_or (a b : value) : value := if truthy a then a else b.

(** [v == s] for a [str] literal [s]: no other JSON value equals a string. *)
Definition eq_str (v : value) (s : string) : bool :=
  match v with VStr s' => String.eqb s' s | _ => false end.

(** [isinstance(v, dict)] *)
Definition is_dict (v : value) : bool :=
  match v with VDict _ => true | _ => false end.

(** *** Dictionaries *)

Fixpoint dict_find (k : string) (d : dict) : option value :=
  match d with
  | [] => None
  | (k', v) :: d' => if String.eqb k k' then Some v else dict_find k d'
  end.

(** [k in d] *)
Definition dict_contains (k : string) (d : dict) : bool :=
  match dict_find k d with Some _ => true | None => false end.

(** [d.get(k, default)] *)
Definition dict_get_default (k : string) (default : value) (d : dict) : value :=
  match dict_find k d with Some v => v | None => default end.

(** [d.get(k)] *)
Definition dict_get (k : string) (d : dict) : value := dict_get_default k VNone d.

(** [d[k]] *)
Definition dict_getitem (k : string) (d : dict) : result value :=
  match dict_find k d with Some v => Ok v | None => Raise (KeyError k) end.

(** [d[k] = v]: an existing key keeps its place, a new one goes last. *)
Fixpoint dict_setitem (k : string) (v : value) (d : dict) : dict :=
  match d with
  | [] => [(k, v)]
  | (k', v') :: d' =>
      if String.eqb k k' then (k', v) :: d' else (k', v') :: dict_setitem k v d'
  end.

(** [d.update(e)] *)
Definition dict_update (d e : dict) : dict :=
  fold_left (fun acc kv => dict_setitem (fst kv) (snd kv) acc) e d.

Definition dict_keys (d : dict) : list string := map fst d.

(** The representation invariant of a Python dictionary: no key twice. *)
Definition dict_ok (d : dict) : Prop := NoDup (dict_keys d).

(** [k in ks] for a list or set [ks] of [str] literals. *)
Definition str_in (k : string) (ks : list string) : bool :=
  existsb (String.eqb k) ks.

(** [v[k]] with a [str] key [k]: only a dictionary can be indexed so. *)
Definition subscript (v : value) (k : string) : result value :=
  match v with
  | VDict d => dict_getitem k d
  | _ => Raise TypeError
  end.

(** [v.get(k, default)]: only a dictionary has the method. *)
Definition method_get (v : value) (k : string) (default : value) : result value :=
  match v with
  | VDict d => Ok (dict_get_default k default d)
  | _ => Raise AttributeError
  end.

(** [d.get(k)] for a key [k] of any type: a list or a dictionary cannot be
    hashed, and no other non-string key equals a string key. *)
Definition dict_get_value (k : value) (d : dict) : result value :=
  match k with
  | VStr s => Ok (dict_get s d)
  | VList _ | VDict _ => Raise TypeError
  | _ => Ok VNone
  end.

Fixpoint chars (s : string) : list value :=
  match s with
  | EmptyString => []
  | String c s' => VStr (String c EmptyString) :: chars s'
  end.

(** [for x in v]: the items [v] yields, when it can be iterated. *)
Definition iterate (v : value) : result (list value) :=
  match v with
  | VList l => Ok l
  | VStr s => Ok (chars s)
  | VDict d => Ok (map VStr (dict_keys d))
  | _ => Raise TypeError
  end.

(** [str(v)], over [repr] for floats and containers (the digits of a float
    and the quoting of nested strings are left to the parameter). *)
Definition str (repr : value -> string) (v : value) : string :=
  match v with
  | VStr s => s
  | VNone => "None"
  | VBool true => "True"
  | VBool false => "False"
  | VInt z => NilZero.string_of_int (Z.to_int z)
  | _ => repr v
  end.

End Py.

Import Py.

(** ** [core.py] *)

Module ChartInfo.

Record t : Type := mk {
  url : value;
  chart_type : value;
  time_range : value
}.

Definition to_dict (self : t) : dict :=
  [("url", url self); ("type", chart_type self); ("timeRange", time_range self)].

End ChartInfo.

(** [if "chart" in data and data["chart"]: chart = ChartInfo(...)], the block
    shared by [KPIDataUpdate.from_dict] and [parse_individual_kpi_response]. *)
Definition parse_chart (data : dict) : result (option ChartInfo.t) :=
  present <- (if dict_contains "chart" data
              then v <- dict_getitem "chart" data ;; Ok (truthy v)
              else Ok false) ;;
  if (present : bool) then
    chart_data <- dict_getitem "chart" data ;;
    url <- subscript chart_data "url" ;;
    chart_type <- method_get chart_data "type" (VStr "unknown") ;;
    time_range <- method_get chart_data "timeRange" (VStr "unknown") ;;
    Ok (Some (ChartInfo.mk url chart_type time_range))
  else Ok None.

Module KPIDataUpdate.

Record t : Type := mk {
  trace_id : value;
  kpi_id : value;
  timestamp : value;
  kpi_type : value;
  data : value;
  kpi_ids : value;
  chart : option ChartInfo.t;
  metadata : value
}.

Definition to_dict (self : t) : dict :=
  let result := [("traceId", trace_id self);
                 ("kpiId", kpi_id self);
                 ("timestamp", timestamp self);
                 ("kpiType", kpi_type self);
                 ("data", data self)] in
  let result := if truthy (kpi_ids self)
                then dict_setitem "kpiIds" (kpi_ids self) result else result in
  let result := match chart self with
                | Some c => dict_setitem "chart" (VDict (ChartInfo.to_dict c)) result
                | None => result
                end in
  let result := if truthy (metadata self)
                then dict_setitem "metadata" (metadata self) result else result in
  result.

Definition required_fields : list string :=
  ["traceId"; "kpiId"; "timestamp"; "kpiType"; "data"].

Definition missing_message (field : string) : string :=
  ("Required field '" ++ field ++ "' missing from KPI data")%string.

(** [for field in required_fields: if field not in data: raise ValueError(...)] *)
Fixpoint check_required (fields : list string) (d : dict) : result unit :=
  match fields with
  | [] => Ok tt
  | field :: rest =>
      if negb (dict_contains field d)
      then Raise (ValueError (missing_message field))
      else check_required rest d
  end.

Definition from_dict (d : dict) : result t :=
  _ <- check_required required_fields d ;;
  chart <- parse_chart d ;;
  trace_id <- dict_getitem "traceId" d ;;
  kpi_id <- dict_getitem "kpiId" d ;;
  timestamp <- dict_getitem "timestamp" d ;;
  kpi_type <- dict_getitem "kpiType" d ;;
  data <- dict_getitem "data" d ;;
  Ok (mk trace_id kpi_id timestamp kpi_type data
         (dict_get "kpiIds" d) chart (dict_get "metadata" d)).

Definition validate (self : t) : bool :=
  if negb (truthy (trace_id self)) || negb (truthy (kpi_id self)) then false
  else if negb (truthy (timestamp self)) || negb (truthy (kpi_type self)) then false
  else if negb (is_dict (data self)) then false
  else true.

End KPIDataUpdate.

Module KPIErrorUpdate.

Record t : Type := mk {
  trace_id : value;
  error : value;
  timestamp : value;
  kpi_id : value;
  kpi_ids : value;
  retry_count : value;
  component : value;
  workflow_id : value;
  execution_id : value;
  additional_fields : option dict
}.

Definition to_dict (self : t) : dict :=
  let result := [("traceId", trace_id self); ("error", error self)] in
  let result := if truthy (timestamp self)
                then dict_setitem "timestamp" (timestamp self) result else result in
  let result := if truthy (kpi_id self)
                then dict_setitem "kpiId" (kpi_id self) result else result in
  let result := if truthy (kpi_ids self)
                then dict_setitem "kpiIds" (kpi_ids self) result else result in
  let result := if negb (is_none (retry_count self))
                then dict_setitem "retryCount" (retry_count self) result else result in
  let result := if truthy (component self)
                then dict_setitem "component" (component self) result else result in
  let result := if truthy (workflow_id self)
                then dict_setitem "workflowId" (workflow_id self) result else result in
  let result := if truthy (execution_id self)
                then dict_setitem "executionId" (execution_id self) result else result in
  let result := match additional_fields self with
                | Some extra =>
                    if truthy (VDict extra) then dict_update result extra else result
                | None => result
                end in
  result.

Definition known_fields : list string :=
  ["traceId"; "error"; "timestamp"; "kpiId"; "kpiIds";
   "retryCount"; "component"; "workflowId"; "executionId"].

Definition from_dict (d : dict) : result t :=
  let trace_id := dict_get "traceId" d in
  if negb (truthy trace_id)
  then Raise (ValueError "traceId is required in error response")
  else
    let error := dict_get_default "error" (VDict []) d in
    if negb (truthy error)
    then Raise (ValueError "error field is required in error response")
    else
      let timestamp := dict_get "timestamp" d in
      let kpi_id := dict_get "kpiId" d in
      let kpi_ids := dict_get "kpiIds" d in
      let retry_count := dict_get "retryCount" d in
      let component := dict_get "component" d in
      let workflow_id := dict_get "workflowId" d in
      let execution_id := dict_get "executionId" d in
      let additional_fields :=
        filter (fun kv => negb (str_in (fst kv) known_fields)) d in
      Ok (mk trace_id error timestamp kpi_id kpi_ids retry_count component
             workflow_id execution_id
             (if truthy (VDict additional_fields)
              then Some additional_fields else None)).

Section Message.

(** Python's [repr], needed by [str(self.error)]. *)
Variable repr : value -> string.

Definition get_error_message (self : t) : value :=
  match error self with
  | VDict e =>
      py_or (dict_get "message" e)
        (py_or (dict_get "error" e)
           (py_or (dict_get "description" e)
              (VStr (str repr (error self)))))
  | _ => VStr (str repr (error self))
  end.

Definition get_error_code (self : t) : value :=
  match error self with
  | VDict e =>
      let code := py_or (dict_get "code" e) (dict_get "errorCode" e) in
      if truthy code then VStr (str repr code)
      else
        let status := dict_get "status" e in
        if truthy status then VStr (str repr status) else VNone
  | _ => VNone
  end.

End Message.

Definition get_error_type (self : t) : value :=
  match error self with
  | VDict e =>
      py_or (dict_get "name" e)
        (py_or (dict_get "type" e) (dict_get "errorType" e))
  | _ => VNone
  end.

Definition validate (self : t) : bool :=
  if negb (truthy (trace_id self)) then false
  else if negb (truthy (error self)) then false
  else true.

End KPIErrorUpdate.

Definition parse_kpi_data_update (d : dict) : result KPIDataUpdate.t :=
  KPIDataUpdate.from_dict d.

Definition parse_kpi_error_update (d : dict) : result KPIErrorUpdate.t :=
  KPIErrorUpdate.from_dict d.

Module KPIPackage.

Record t : Type := mk {
  trace_id : value;
  kpi_id : value;
  timestamp : value;
  kpi_type : value;
  data : value;
  metadata : value;
  chart : option ChartInfo.t;
  analysis : value
}.

Definition to_dict (self : t) : dict :=
  let result := [("traceId", trace_id self);
                 ("kpiId", kpi_id self);
                 ("timestamp", timestamp self);
                 ("kpiType", kpi_type self);
                 ("data", data self);
                 ("metadata", metadata self)] in
  let result := match chart self with
                | Some c => dict_setitem "chart" (VDict (ChartInfo.to_dict c)) result
                | None => result
                end in
  let result := if truthy (analysis self)
                then dict_setitem "analysis" (analysis self) result else result in
  result.

End KPIPackage.

(** ** [responses.py] *)

Module CBBIData.

Record t : Type := mk {
  cbbi_btc_price_usd : value;
  cbbi_rhodl : value;
  cbbi_mvrv : value;
  cbbi_confidence : value
}.

Definition to_dict (self : t) : dict :=
  [("cbbi-btc-price-usd", cbbi_btc_price_usd self);
   ("cbbi-rhodl", cbbi_rhodl self);
   ("cbbi-mvrv", cbbi_mvrv self);
   ("cbbi-confidence", cbbi_confidence self)].

End CBBIData.

Module CMCData.

Record t : Type := mk {
  cmc_btc_dominance : value;
  cmc_eth_dominance : value;
  cmc_totalmarketcap_usd : value;
  cmc_stablecoinmarketcap_usd : value
}.

Definition to_dict (self : t) : dict :=
  [("cmc-btc-dominance", cmc_btc_dominance self);
   ("cmc-eth-dominance", cmc_eth_dominance self);
   ("cmc-totalmarketcap-usd", cmc_totalmarketcap_usd self);
   ("cmc-stablecoinmarketcap-usd", cmc_stablecoinmarketcap_usd self)].

End CMCData.

Module IndividualKPIResponse.

Record t : Type := mk {
  trace_id : value;
  kpi_id : value;
  timestamp : value;
  kpi_type : value;
  data : value;
  chart : option ChartInfo.t;
  metadata : value
}.

Definition to_dict (self : t) : dict :=
  let result := [("traceId", trace_id self);
                 ("kpiId", kpi_id self);
                 ("timestamp", timestamp self);
                 ("kpiType", kpi_type self);
                 ("data", data self)] in
  let result := match chart self with
                | Some c => dict_setitem "chart" (VDict (ChartInfo.to_dict c)) result
                | None => result
                end in
  let result := if truthy (metadata self)
                then dict_setitem "metadata" (metadata self) result else result in
  result.

Definition to_kpi_data_update (self : t) : KPIDataUpdate.t :=
  KPIDataUpdate.mk (trace_id self) (kpi_id self) (timestamp self)
    (kpi_type self) (data self) VNone (chart self) (metadata self).

End IndividualKPIResponse.

(** The loop of [to_kpi_data_updates], whose text is the same in
    [CBBIMultiKPIResponse] and [CMCMultiKPIResponse]: [updates] is the list
    the loop appends to, [ids] what is left of [self.kpi_ids]. *)
Fixpoint collect_updates (trace_id timestamp kpi_type kpi_ids metadata : value)
    (data_dict : dict) (ids : list value) (updates : list KPIDataUpdate.t)
    : result (list KPIDataUpdate.t) :=
  match ids with
  | [] => Ok updates
  | kpi_id :: rest =>
      kpi_value <- dict_get_value kpi_id data_dict ;;
      if negb (is_none kpi_value) then
        collect_updates trace_id timestamp kpi_type kpi_ids metadata data_dict rest
          (updates ++ [KPIDataUpdate.mk trace_id kpi_id timestamp kpi_type
                         (VDict [("value", kpi_value)]) kpi_ids None metadata])
      else
        collect_updates trace_id timestamp kpi_type kpi_ids metadata data_dict rest
          updates
  end.

Module CBBIMultiKPIResponse.

Record t : Type := mk {
  trace_id : value;
  timestamp : value;
  kpi_type : value;
  kpi_ids : value;
  data : option CBBIData.t;
  metadata : value
}.

Definition to_dict (self : t) : dict :=
  let result := [("traceId", trace_id self);
                 ("timestamp", timestamp self);
                 ("kpiType", kpi_type self)] in
  let result := if truthy (kpi_ids self)
                then dict_setitem "kpiIds" (kpi_ids self) result else result in
  let result := match data self with
                | Some d => dict_setitem "data" (VDict (CBBIData.to_dict d)) result
                | None => result
                end in
  let result := if truthy (metadata self)
                then dict_setitem "metadata" (metadata self) result else result in
  result.

Definition to_kpi_data_updates (self : t) : result (list KPIDataUpdate.t) :=
  match data self with
  | None => Ok []
  | Some d =>
      if negb (truthy (kpi_ids self)) then Ok []
      else
        let updates := [] in
        let data_dict := CBBIData.to_dict d in
        ids <- iterate (kpi_ids self) ;;
        collect_updates (trace_id self) (timestamp self) (kpi_type self)
          (kpi_ids self) (metadata self) data_dict ids updates
  end.

End CBBIMultiKPIResponse.

Module CMCMultiKPIResponse.

Record t : Type := mk {
  trace_id : value;
  timestamp : value;
  kpi_type : value;
  kpi_ids : value;
  data : option CMCData.t;
  metadata : value
}.

Definition to_dict (self : t) : dict :=
  let result := [("traceId", trace_id self);
                 ("timestamp", timestamp self);
                 ("kpiType", kpi_type self)] in
  let result := if truthy (kpi_ids self)
                then dict_setitem "kpiIds" (kpi_ids self) result else result in
  let result := match data self with
                | Some d => dict_setitem "data" (VDict (CMCData.to_dict d)) result
                | None => result
                end in
  let result := if truthy (metadata self)
                then dict_setitem "metadata" (metadata self) result else result in
  result.

Definition to_kpi_data_updates (self : t) : result (list KPIDataUpdate.t) :=
  match data self with
  | None => Ok []
  | Some d =>
      if negb (truthy (kpi_ids self)) then Ok []
      else
        let updates := [] in
        let data_dict := CMCData.to_dict d in
        ids <- iterate (kpi_ids self) ;;
        collect_updates (trace_id self) (timestamp self) (kpi_type self)
          (kpi_ids self) (metadata self) data_dict ids updates
  end.

End CMCMultiKPIResponse.

(** [MultiKPIResponse = Union[CBBIMultiKPIResponse, CMCMultiKPIResponse]] *)
Inductive MultiKPIResponse : Type :=
| CBBIMulti (r : CBBIMultiKPIResponse.t)
| CMCMulti (r : CMCMultiKPIResponse.t).

(** [KPIResponse = Union[IndividualKPIResponse, CBBIMultiKPIResponse,
    CMCMultiKPIResponse]] *)
Inductive KPIResponse : Type :=
| Individual (r : IndividualKPIResponse.t)
| Multi (r : MultiKPIResponse).

(** [if "data" in data and data["data"]] *)
Definition has_data (data : dict) : result bool :=
  if dict_contains "data" data
  then v <- dict_getitem "data" data ;; Ok (truthy v)
  else Ok false.

Section Parse.

(** Python's [repr], needed by the f-string of the unknown-type error. *)
Variable repr : value -> string.

Definition unknown_type_message (kpi_type : value) : string :=
  ("Unknown multi-KPI type: " ++ str repr kpi_type)%string.

Definition parse_multi_kpi_response (data : dict) : result MultiKPIResponse :=
  let kpi_type := dict_get "kpiType" data in
  if eq_str kpi_type "cbbi-multi" then
    cbbi_data <-
      (present <- has_data data ;;
       if (present : bool) then
         raw_data <- dict_getitem "data" data ;;
         a <- method_get raw_data "cbbi-btc-price-usd" (VFloat 0) ;;
         b <- method_get raw_data "cbbi-rhodl" (VFloat 0) ;;
         c <- method_get raw_data "cbbi-mvrv" (VFloat 0) ;;
         d <- method_get raw_data "cbbi-confidence" (VFloat 0) ;;
         Ok (Some (CBBIData.mk a b c d))
       else Ok None) ;;
    trace_id <- dict_getitem "traceId" data ;;
    timestamp <- dict_getitem "timestamp" data ;;
    Ok (CBBIMulti
          (CBBIMultiKPIResponse.mk trace_id timestamp (VStr "cbbi-multi")
             (dict_get "kpiIds" data) cbbi_data (dict_get "metadata" data)))
  else if eq_str kpi_type "cmc-multi" then
    cmc_data <-
      (present <- has_data data ;;
       if (present : bool) then
         raw_data <- dict_getitem "data" data ;;
         a <- method_get raw_data "cmc-btc-dominance" (VFloat 0) ;;
         b <- method_get raw_data "cmc-eth-dominance" (VFloat 0) ;;
         c <- method_get raw_data "cmc-totalmarketcap-usd" (VFloat 0) ;;
         d <- method_get raw_data "cmc-stablecoinmarketcap-usd" (VFloat 0) ;;
         Ok (Some (CMCData.mk a b c d))
       else Ok None) ;;
    trace_id <- dict_getitem "traceId" data ;;
    timestamp <- dict_getitem "timestamp" data ;;
    Ok (CMCMulti
          (CMCMultiKPIResponse.mk trace_id timestamp (VStr "cmc-multi")
             (dict_get "kpiIds" data) cmc_data (dict_get "metadata" data)))
  else Raise (ValueError (unknown_type_message kpi_type)).

Definition parse_individual_kpi_response (data : dict)
    : result IndividualKPIResponse.t :=
  chart <- parse_chart data ;;
  trace_id <- dict_getitem "traceId" data ;;
  kpi_id <- dict_getitem "kpiId" data ;;
  timestamp <- dict_getitem "timestamp" data ;;
  kpi_type <- dict_getitem "kpiType" data ;;
  data' <- dict_getitem "data" data ;;
  Ok (IndividualKPIResponse.mk trace_id kpi_id timestamp kpi_type data' chart
        (dict_get "metadata" data)).

Definition indeterminate_message : string :=
  "Cannot determine KPI response type from data structure".

Definition parse_kpi_response (data : dict) : result KPIResponse :=
  let kpi_type := dict_get "kpiType" data in
  if existsb (eq_str kpi_type) ["cbbi-multi"; "cmc-multi"] then
    r <- parse_multi_kpi_response data ;; Ok (Multi r)
  else if dict_contains "kpiId" data then
    r <- parse_individual_kpi_response data ;; Ok (Individual r)
  else Raise (ValueError indeterminate_message).

End Parse.

Definition parse_error_response (d : dict) : result KPIErrorUpdate.t :=
  KPIErrorUpdate.from_dict d.

(** ** [triggers.py] *)

Module IndividualKPITrigger.

Record t : Type := mk {
  trace_id : value;
  kpi_id : value;
  timestamp : value;
  kpi_type : value;
  metadata : value
}.

Definition to_dict (self : t) : dict :=
  let result := [("traceId", trace_id self);
                 ("kpiId", kpi_id self);
                 ("timestamp", timestamp self);
                 ("kpiType", kpi_type self)] in
  let result := if truthy (metadata self)
                then dict_setitem "metadata" (metadata self) result else result in
  result.

Definition from_dict (data : dict) : result t :=
  trace_id <- dict_getitem "traceId" data ;;
  kpi_id <- dict_getitem "kpiId" data ;;
  timestamp <- dict_getitem "timestamp" data ;;
  kpi_type <- dict_getitem "kpiType" data ;;
  Ok (mk trace_id kpi_id timestamp kpi_type (dict_get "metadata" data)).

End IndividualKPITrigger.

Module MultiKPITrigger.

Record t : Type := mk {
  trace_id : value;
  kpi_ids : value;
  timestamp : value;
  kpi_type : value;
  metadata : value
}.

Definition to_dict (self : t) : dict :=
  let result := [("traceId", trace_id self);
                 ("kpiIds", kpi_ids self);
                 ("timestamp", timestamp self);
                 ("kpiType", kpi_type self)] in
  let result := if truthy (metadata self)
                then dict_setitem "metadata" (metadata self) result else result in
  result.

Definition from_dict (data : dict) : result t :=
  trace_id <- dict_getitem "traceId" data ;;
  kpi_ids <- dict_getitem "kpiIds" data ;;
  timestamp <- dict_getitem "timestamp" data ;;
  kpi_type <- dict_getitem "kpiType" data ;;
  Ok (mk trace_id kpi_ids timestamp kpi_type (dict_get "metadata" data)).

End MultiKPITrigger.

Module QueueTrigger.

Record t : Type := mk {
  trace_id : value;
  queue_type : value;
  timestamp : value;
  metadata : value
}.

Definition to_dict (self : t) : dict :=
  let result := [("traceId", trace_id self);
                 ("queueType", queue_type self);
                 ("timestamp", timestamp self)] in
  let result := if truthy (metadata self)
                then dict_setitem "metadata" (metadata self) result else result in
  result.

Definition from_dict (data : dict) : result t :=
  trace_id <- dict_getitem "traceId" data ;;
  queue_type <- dict_getitem "queueType" data ;;
  timestamp <- dict_getitem "timestamp" data ;;
  Ok (mk trace_id queue_type timestamp (dict_get "metadata" data)).

End QueueTrigger.

(** ** [validation/webhook_validator.py] *)

Module WebhookValidator.

(** [isinstance(v, (int, float))]; [bool] is a subclass of [int]. *)
Definition is_numeric (v : value) : bool :=
  match v with
  | VBool _ | VInt _ | VFloat _ => true
  | _ => false
  end.

(** [for kpi in expected_kpis: ...]: [Ok false] stands for the
    [return False] inside the loop, [Ok true] for falling through. *)
Fixpoint check_expected (expected_kpis : list string) (data_dict : dict)
    : result bool :=
  match expected_kpis with
  | [] => Ok true
  | kpi :: rest =>
      if negb (dict_contains kpi data_dict) then Ok false
      else
        v <- dict_getitem kpi data_dict ;;
        if negb (is_numeric v) then Ok false
        else check_expected rest data_dict
  end.

(** [for field in required_fields: if not getattr(response, field): return
    False], over the values of the three attributes: [true] when the loop
    falls through. *)
Definition check_required_attrs (attrs : list value) : bool :=
  forallb truthy attrs.

(** [try: ... except Exception: return False] *)
Definition caught (body : result bool) : bool :=
  match body with
  | Ok b => b
  | Raise _ => false
  end.

Section Validate.

Variable repr : value -> string.

Definition validate_cbbi_response (response_data : dict) : bool :=
  caught
    (cbbi_response <- parse_multi_kpi_response repr response_data ;;
     match cbbi_response with
     | CMCMulti _ => Ok false
     | CBBIMulti r =>
         if negb (check_required_attrs
                    [CBBIMultiKPIResponse.trace_id r;
                     CBBIMultiKPIResponse.timestamp r;
                     CBBIMultiKPIResponse.kpi_type r])
         then Ok false
         else if negb (eq_str (CBBIMultiKPIResponse.kpi_type r) "cbbi-multi")
         then Ok false
         else
           data_ok <-
             match CBBIMultiKPIResponse.data r with
             | Some d =>
                 check_expected
                   ["cbbi-btc-price-usd"; "cbbi-rhodl"; "cbbi-mvrv";
                    "cbbi-confidence"]
                   (CBBIData.to_dict d)
             | None => Ok true
             end ;;
           if negb data_ok then Ok false
           else
             kpi_updates <- CBBIMultiKPIResponse.to_kpi_data_updates r ;;
             if Nat.eqb (length kpi_updates) 0 then Ok false else Ok true
     end).

Definition validate_cmc_response (response_data : dict) : bool :=
  caught
    (cmc_response <- parse_multi_kpi_response repr response_data ;;
     match cmc_response with
     | CBBIMulti _ => Ok false
     | CMCMulti r =>
         if negb (check_required_attrs
                    [CMCMultiKPIResponse.trace_id r;
                     CMCMultiKPIResponse.timestamp r;
                     CMCMultiKPIResponse.kpi_type r])
         then Ok false
         else if negb (eq_str (CMCMultiKPIResponse.kpi_type r) "cmc-multi")
         then Ok false
         else
           data_ok <-
             match CMCMultiKPIResponse.data r with
             | Some d =>
                 check_expected
                   ["cmc-btc-dominance"; "cmc-eth-dominance";
                    "cmc-totalmarketcap-usd"; "cmc-stablecoinmarketcap-usd"]
                   (CMCData.to_dict d)
             | None => Ok true
             end ;;
           if negb data_ok then Ok false
           else
             kpi_updates <- CMCMultiKPIResponse.to_kpi_data_updates r ;;
             if Nat.eqb (length kpi_updates) 0 then Ok false else Ok true
     end).

End Validate.

End WebhookValidator.

(** ** The operations as the specification words them *)

(** The record the normalizer emits for the id [id] whose value is [v]. *)
Definition emitted (trace_id timestamp kpi_type kpi_ids metadata : value)
    (id : string) (v : value) : KPIDataUpdate.t :=
  KPIDataUpdate.mk trace_id (VStr id) timestamp kpi_type
    (VDict [("value", v)]) kpi_ids None metadata.

(** The normalizer of the specification: for each id in declared order, no
    record when [mapping] has no value for it, one record otherwise. *)
Definition normalized (trace_id timestamp kpi_type kpi_ids metadata : value)
    (mapping : dict) (ids : list string) : list KPIDataUpdate.t :=
  flat_map
    (fun id =>
       match dict_find id mapping with
       | Some v =>
           if is_none v then []
           else [emitted trace_id timestamp kpi_type kpi_ids metadata id v]
       | None => []
       end)
    ids.

(** The first of [vs] that is not [None]. *)
Fixpoint first_non_null (vs : list value) : option value :=
  match vs with
  | [] => None
  | v :: rest => if is_none v then first_non_null rest else Some v
  end.

(** The first of [vs] that is truthy. *)
Fixpoint first_truthy (vs : list value) : option value :=
  match vs with
  | [] => None
  | v :: rest => if truthy v then Some v else first_truthy rest
  end.

(** The message accessor as the specification words it: the first non-null
    of the three entries of a mapping, else the stringified error. *)
Definition message_as_specified (repr : value -> string)
    (self : KPIErrorUpdate.t) : value :=
  match KPIErrorUpdate.error self with
  | VDict e =>
      match first_non_null
              [dict_get "message" e; dict_get "error" e; dict_get "description" e]
      with
      | Some v => v
      | None => VStr (str repr (KPIErrorUpdate.error self))
      end
  | v => VStr (str repr v)
  end.

(** The keys of [additional_fields], none when the field is absent. *)
Definition extra_keys (self : KPIErrorUpdate.t) : list string :=
  match KPIErrorUpdate.additional_fields self with
  | Some extra => dict_keys extra
  | None => []
  end.

(** The optional fields of the error record that [to_dict] tests for
    truthiness, each with its key. *)
Definition optional_fields (self : KPIErrorUpdate.t) : list (string * value) :=
  [("timestamp", KPIErrorUpdate.timestamp self);
   ("kpiId", KPIErrorUpdate.kpi_id self);
   ("kpiIds", KPIErrorUpdate.kpi_ids self);
   ("component", KPIErrorUpdate.component self);
   ("workflowId", KPIErrorUpdate.workflow_id self);
   ("executionId", KPIErrorUpdate.execution_id self)].

(** What [KPIErrorUpdate.to_dict] has written when it reaches the merge of
    [additional_fields]. *)
Definition known_part (self : KPIErrorUpdate.t) : dict :=
  KPIErrorUpdate.to_dict
    (KPIErrorUpdate.mk
       (KPIErrorUpdate.trace_id self) (KPIErrorUpdate.error self)
       (KPIErrorUpdate.timestamp self) (KPIErrorUpdate.kpi_id self)
       (KPIErrorUpdate.kpi_ids self) (KPIErrorUpdate.retry_count self)
       (KPIErrorUpdate.component self) (KPIErrorUpdate.workflow_id self)
       (KPIErrorUpdate.execution_id self) None).

(** A success record with its [kpi_ids] replaced. *)
Definition with_kpi_ids (self : KPIDataUpdate.t) (ids : value) : KPIDataUpdate.t :=
  KPIDataUpdate.mk
    (KPIDataUpdate.trace_id self) (KPIDataUpdate.kpi_id self)
    (KPIDataUpdate.timestamp self) (KPIDataUpdate.kpi_type self)
    (KPIDataUpdate.data self) ids
    (KPIDataUpdate.chart self) (KPIDataUpdate.metadata self).

(** A validly constructed error record: it passes [validate] (trace id and
    error are non-empty), and its additional fields are absent or a
    non-empty dictionary none of whose keys is a known key. *)
Definition validly_constructed (self : KPIErrorUpdate.t) : Prop :=
  KPIErrorUpdate.validate self = true
  /\ match KPIErrorUpdate.additional_fields self with
     | None => True
     | Some extra =>
         extra <> [] /\ dict_ok extra
         /\ forall k, In k (dict_keys extra) ->
                      ~ In k KPIErrorUpdate.known_fields
     end.

(** What a parser reads back for an optional field that [to_dict] wrote only
    when truthy. *)
Definition or_none (v : value) : value := if truthy v then v else VNone.

(** ** Sample inputs *)

Definition lacks_data : dict :=
  [("traceId", VStr "trace_1"); ("kpiId", VStr "btc-price");
   ("timestamp", VStr "2025-08-14T14:30:22Z"); ("kpiType", VStr "price")].

Definition bogus_multi : dict :=
  [("traceId", VStr "trace_1"); ("kpiType", VStr "bogus-multi")].

Definition partial_data_no_trace : dict :=
  [("kpiType", VStr "cbbi-multi");
   ("data", VDict [("cbbi-rhodl", VFloat 0.5)])].

Definition partial_data : dict :=
  [("traceId", VStr "trace_1"); ("timestamp", VStr "2025-08-14T14:30:22Z");
   ("kpiType", VStr "cbbi-multi");
   ("data", VDict [("cbbi-rhodl", VFloat 0.5)])].

Definition multi_with_kpi_id : dict :=
  [("traceId", VStr "trace_1"); ("timestamp", VStr "2025-08-14T14:30:22Z");
   ("kpiType", VStr "cbbi-multi"); ("kpiId", VStr "cbbi-rhodl")].

Definition string_data_no_trace : dict :=
  [("kpiType", VStr "cbbi-multi"); ("data", VStr "abc")].

Definition no_trace : dict :=
  [("kpiType", VStr "cmc-multi"); ("timestamp", VStr "2025-08-14T14:30:22Z");
   ("data", VDict [("cmc-btc-dominance", VFloat 42.5)])].

Definition empty_message : KPIErrorUpdate.t :=
  KPIErrorUpdate.mk (VStr "trace_1")
    (VDict [("message", VStr ""); ("error", VStr "E")])
    VNone VNone VNone VNone VNone VNone VNone None.

Definition message_and_error : KPIErrorUpdate.t :=
  KPIErrorUpdate.mk (VStr "trace_1")
    (VDict [("message", VStr "M"); ("error", VStr "E")])
    VNone VNone VNone VNone VNone VNone VNone None.

Definition colliding : KPIErrorUpdate.t :=
  KPIErrorUpdate.mk (VStr "trace_1") (VStr "boom")
    VNone VNone VNone VNone VNone VNone VNone
    (Some [("traceId", VStr "other")]).

Definition sample_update : KPIDataUpdate.t :=
  KPIDataUpdate.mk (VStr "trace_20250814_143022_abc123") (VStr "cmc-btc-price")
    (VStr "2025-08-14T14:30:22Z") (VStr "price")
    (VDict [("value", VFloat 45000); ("volume", VInt 1000000)])
    VNone
    (Some (ChartInfo.mk (VStr "https://example.com/chart.png")
             (VStr "line") (VStr "24h")))
    (VDict [("source", VStr "coinmarketcap"); ("quality", VStr "high")]).

Definition sample_error : KPIErrorUpdate.t :=
  KPIErrorUpdate.mk (VStr "trace_complex")
    (VDict [("message", VStr "Network timeout"); ("code", VStr "TIMEOUT")])
    (VStr "2025-08-14T14:30:22Z") (VStr "test-kpi") VNone (VInt 2)
    VNone VNone VNone
    (Some [("customField", VStr "custom_value")]).

Definition empty_kpi_id : KPIErrorUpdate.t :=
  KPIErrorUpdate.mk (VStr "trace_1") (VStr "boom")
    VNone (VStr "") VNone VNone VNone VNone VNone None.

Definition extra_timestamp : KPIErrorUpdate.t :=
  KPIErrorUpdate.mk (VStr "trace_1") (VStr "boom")
    VNone VNone VNone VNone VNone VNone VNone
    (Some [("timestamp", VStr "2025-08-14T14:30:22Z")]).

Definition zero_retries : KPIErrorUpdate.t :=
  KPIErrorUpdate.mk (VStr "trace_1") (VStr "boom")
    (VStr "") VNone (VList []) (VInt 0) VNone VNone VNone None.

Definition empty_error_type : KPIErrorUpdate.t :=
  KPIErrorUpdate.mk (VStr "trace_1")
    (VDict [("message", VStr "boom"); ("errorType", VStr "")])
    VNone VNone VNone VNone VNone VNone VNone None.

Definition falsy_kpi_id_payload : dict :=
  [("traceId", VStr "trace_1"); ("error", VStr "boom"); ("kpiId", VStr "");
   ("retryCount", VInt 0); ("customField", VStr "custom_value")].

Definition chart_without_type : dict :=
  [("traceId", VStr "trace_1"); ("kpiId", VStr "btc-price");
   ("chart", VDict [("url", VStr "https://example.com/chart.png")])].

Definition sample_cbbi : CBBIMultiKPIResponse.t :=
  CBBIMultiKPIResponse.mk (VStr "trace_123") (VStr "2025-08-14T14:30:22Z")
    (VStr "cbbi-multi")
    (VList [VStr "cbbi-btc-price-usd"; VStr "cbbi-rhodl"; VStr "cbbi-mvrv";
            VStr "cbbi-confidence"])
    (Some (CBBIData.mk (VFloat 45000) (VFloat 0.75) (VFloat 0.625) (VFloat 0.5)))
    (VDict [("source", VStr "cbbi")]).

Definition sample_cmc : CMCMultiKPIResponse.t :=
  CMCMultiKPIResponse.mk (VStr "trace_456") (VStr "2025-08-14T14:30:22Z")
    (VStr "cmc-multi")
    (VList [VStr "cmc-btc-dominance"; VStr "cmc-eth-dominance"])
    (Some (CMCData.mk (VFloat 42.5) (VFloat 18.25) (VInt 2500000000000)
             (VInt 150000000000)))
    VNone.

Definition sample_individual : IndividualKPIResponse.t :=
  IndividualKPIResponse.mk (VStr "trace_789") (VStr "btc-price-binance")
    (VStr "2025-08-14T14:30:22Z") (VStr "price")
    (VDict [("value", VFloat 45123.5); ("volume", VInt 987654321)])
    (Some (ChartInfo.mk (VStr "https://example.com/btc-chart.png")
             (VStr "candlestick") (VStr "7d")))
    (VDict [("exchange", VStr "binance")]).

Definition partial_cbbi_payload : dict :=
  [("traceId", VStr "trace_1"); ("timestamp", VStr "2025-08-14T14:30:22Z");
   ("kpiType", VStr "cbbi-multi");
   ("kpiIds", VList [VStr "cbbi-rhodl"; VStr "cbbi-mvrv"]);
   ("data", VDict [("cbbi-rhodl", VFloat 0.5)])].

Definition sample_trigger : MultiKPITrigger.t :=
  MultiKPITrigger.mk (VStr "validation_20250814_143022_cbbi-multi")
    (VList [VStr "cbbi-btc-price-usd"; VStr "cbbi-rhodl"; VStr "cbbi-mvrv";
            VStr "cbbi-confidence"])
    (VStr "2025-08-14T14:30:22Z") (VStr "cbbi-multi")
    (VDict [("validation", VBool true); ("test_run", VBool true)]).

Definition trigger_without_timestamp : dict :=
  [("traceId", VStr "trace_1"); ("kpiIds", VList [VStr "cbbi-rhodl"]);
   ("kpiType", VStr "cbbi-multi")].

(** ** Facts about dictionaries *)

Section DictFacts.

Implicit Types (k : string) (v : value) (d e : dict).

Lemma dict_find_setitem_same k v d :
  dict_find k (dict_setitem k v d) = Some v.
Proof.
  induction d as [|[k' v'] d IH]; simpl.
  - now rewrite String.eqb_refl.
  - destruct (String.eqb k k') eqn:E; simpl; rewrite E; auto.
Qed.

Lemma dict_find_setitem_other k k' v d :
  String.eqb k k' = false ->
  dict_find k (dict_setitem k' v d) = dict_find k d.
Proof.
  intros Hne. induction d as [|[k0 v0] d IH]; simpl.
  - now rewrite Hne.
  - destruct (String.eqb k' k0) eqn:E; simpl.
    + apply String.eqb_eq in E. subst. now rewrite Hne.
    + now rewrite IH.
Qed.

Lemma dict_find_when_same (c : bool) k v d :
  dict_find k (if c then dict_setitem k v d else d)
  = if c then Some v else dict_find k d.
Proof. destruct c; auto using dict_find_setitem_same. Qed.

Lemma dict_find_when_other (c : bool) k k' v d :
  String.eqb k k' = false ->
  dict_find k (if c then dict_setitem k' v d else d) = dict_find k d.
Proof. destruct c; auto using dict_find_setitem_other. Qed.

Lemma dict_find_none k d :
  dict_find k d = None <-> ~ In k (dict_keys d).
Proof.
  induction d as [|[k' v'] d IH]; simpl.
  - tauto.
  - destruct (String.eqb k k') eqn:E.
    + apply String.eqb_eq in E. subst. split; [discriminate | tauto].
    + apply String.eqb_neq in E. rewrite IH. split.
      * intros H [H1 | H1]; [congruence | tauto].
      * tauto.
Qed.

Lemma dict_find_some_in k d :
  dict_find k d <> None -> In k (dict_keys d).
Proof.
  intros H. destruct (in_dec string_dec k (dict_keys d)) as [|Hout]; auto.
  exfalso. apply H. now apply dict_find_none.
Qed.

Lemma dict_find_in k v d :
  dict_ok d -> In (k, v) d -> dict_find k d = Some v.
Proof.
  unfold dict_ok. induction d as [|[k' v'] d IH]; simpl; [tauto|].
  intros Hnd [Heq | Hin].
  - inversion Heq; subst. now rewrite String.eqb_refl.
  - inversion Hnd as [|? ? Hk Hnd']; subst.
    destruct (String.eqb k k') eqn:E; [|auto].
    apply String.eqb_eq in E. subst. exfalso. apply Hk.
    change k' with (fst (k', v)). now apply in_map.
Qed.

Lemma dict_find_app k d e :
  dict_find k (d ++ e)
  = match dict_find k d with Some v => Some v | None => dict_find k e end.
Proof.
  induction d as [|[k' v'] d IH]; simpl; auto.
  destruct (String.eqb k k'); auto.
Qed.

Lemma dict_setitem_fresh k v d :
  dict_find k d = None -> dict_setitem k v d = d ++ [(k, v)].
Proof.
  induction d as [|[k' v'] d IH]; simpl; auto.
  destruct (String.eqb k k'); [discriminate|].
  intros H. now rewrite IH.
Qed.

Lemma dict_find_update_out k d e :
  ~ In k (dict_keys e) -> dict_find k (dict_update d e) = dict_find k d.
Proof.
  unfold dict_update. revert d.
  induction e as [|[k' v'] e IH]; simpl; intros d Hout; auto.
  rewrite IH by tauto.
  apply dict_find_setitem_other. apply String.eqb_neq. intros ->. tauto.
Qed.

Lemma dict_find_update_in k v d e :
  dict_ok e -> In (k, v) e -> dict_find k (dict_update d e) = Some v.
Proof.
  unfold dict_ok. revert d.
  induction e as [|[k' v'] e IH]; simpl; intros d Hnd Hin; [tauto|].
  inversion Hnd as [|? ? Hk Hnd']; subst.
  destruct Hin as [Heq | Hin].
  - inversion Heq; subst.
    change (dict_find k (dict_update (dict_setitem k v d) e) = Some v).
    rewrite dict_find_update_out by assumption.
    apply dict_find_setitem_same.
  - now apply IH.
Qed.

Lemma dict_update_disjoint d e :
  dict_ok e ->
  (forall k, In k (dict_keys e) -> dict_find k d = None) ->
  dict_update d e = d ++ e.
Proof.
  unfold dict_ok, dict_update. revert d.
  induction e as [|[k' v'] e IH]; simpl; intros d Hnd Hout.
  - now rewrite app_nil_r.
  - inversion Hnd as [|? ? Hk Hnd']; subst.
    rewrite dict_setitem_fresh by auto.
    rewrite IH; auto.
    + now rewrite <- app_assoc.
    + intros k Hin. rewrite dict_find_app, Hout by auto. simpl.
      destruct (String.eqb k k') eqn:E; auto.
      apply String.eqb_eq in E. subst. contradiction.
Qed.

Lemma dict_contains_find k d :
  dict_contains k d = false <-> dict_find k d = None.
Proof.
  unfold dict_contains. destruct (dict_find k d); split; congruence.
Qed.

Lemma dict_getitem_contains k d :
  dict_contains k d = true -> exists v, dict_getitem k d = Ok v /\ dict_find k d = Some v.
Proof.
  unfold dict_contains, dict_getitem.
  destruct (dict_find k d); [eauto | discriminate].
Qed.

End DictFacts.

(** ** The aggregate normalizer *)

Section Normalizer.

Variables trace_id timestamp kpi_type kpi_ids metadata : value.
Variable mapping : dict.

Lemma collect_updates_normalized (ids : list string) (updates : list KPIDataUpdate.t) :
  collect_updates trace_id timestamp kpi_type kpi_ids metadata mapping
    (map VStr ids) updates
  = Ok (updates
        ++ normalized trace_id timestamp kpi_type kpi_ids metadata mapping ids).
Proof.
  revert updates. induction ids as [|id ids IH]; intros updates; simpl.
  - now rewrite app_nil_r.
  - unfold dict_get, dict_get_default.
    destruct (dict_find id mapping) as [v|]; simpl.
    + destruct (is_none v); simpl; rewrite IH; auto.
      now rewrite <- app_assoc.
    + apply IH.
Qed.

Lemma in_normalized (ids : list string) (u : KPIDataUpdate.t) :
  In u (normalized trace_id timestamp kpi_type kpi_ids metadata mapping ids)
  <-> exists id v,
        In id ids /\ dict_find id mapping = Some v /\ is_none v = false
        /\ u = emitted trace_id timestamp kpi_type kpi_ids metadata id v.
Proof.
  unfold normalized. rewrite in_flat_map. split.
  - intros (id & Hin & Hu). exists id.
    destruct (dict_find id mapping) as [v|]; [|contradiction].
    exists v. destruct (is_none v) eqn:E; [contradiction|].
    destruct Hu as [<- | []]. auto.
  - intros (id & v & Hin & Hf & Hn & ->). exists id. split; auto.
    rewrite Hf, Hn. now left.
Qed.

End Normalizer.

(** C1: [to_kpi_data_updates] of both aggregate responses returns the empty
    list when [data] or [kpi_ids] is absent; otherwise it walks [kpi_ids] in
    declared order, skips each id for which the serialized aggregate has no
    value, and emits for every other id the record [emitted], which carries
    [{"value": v}], the id, and the response's trace id, timestamp, type,
    full id list and metadata. *)
Theorem to_kpi_data_updates_normalizes
    (trace_id timestamp kpi_type metadata : value) (ids : list string)
    (cbbi : CBBIData.t) (cmc : CMCData.t) :
  let kpi_ids := VList (map VStr ids) in
  (forall k,
      CBBIMultiKPIResponse.to_kpi_data_updates
        (CBBIMultiKPIResponse.mk trace_id timestamp kpi_type k None metadata)
      = Ok [])
  /\ CBBIMultiKPIResponse.to_kpi_data_updates
       (CBBIMultiKPIResponse.mk trace_id timestamp kpi_type VNone (Some cbbi) metadata)
     = Ok []
  /\ CBBIMultiKPIResponse.to_kpi_data_updates
       (CBBIMultiKPIResponse.mk trace_id timestamp kpi_type kpi_ids (Some cbbi) metadata)
     = Ok (normalized trace_id timestamp kpi_type kpi_ids metadata
             (CBBIData.to_dict cbbi) ids)
  /\ (forall k,
        CMCMultiKPIResponse.to_kpi_data_updates
          (CMCMultiKPIResponse.mk trace_id timestamp kpi_type k None metadata)
        = Ok [])
  /\ CMCMultiKPIResponse.to_kpi_data_updates
       (CMCMultiKPIResponse.mk trace_id timestamp kpi_type VNone (Some cmc) metadata)
     = Ok []
  /\ CMCMultiKPIResponse.to_kpi_data_updates
       (CMCMultiKPIResponse.mk trace_id timestamp kpi_type kpi_ids (Some cmc) metadata)
     = Ok (normalized trace_id timestamp kpi_type kpi_ids metadata
             (CMCData.to_dict cmc) ids)
  /\ (forall mapping u,
        In u (normalized trace_id timestamp kpi_type kpi_ids metadata mapping ids)
        <-> exists id v,
              In id ids /\ dict_find id mapping = Some v /\ is_none v = false
              /\ u = KPIDataUpdate.mk trace_id (VStr id) timestamp kpi_type
                       (VDict [("value", v)]) kpi_ids None metadata).
Proof.
  intros kpi_ids.
  assert (Hwalk : forall mapping,
             (if negb (truthy kpi_ids) then Ok []
              else ids' <- iterate kpi_ids ;;
                   collect_updates trace_id timestamp kpi_type kpi_ids metadata
                     mapping ids' [])
             = Ok (normalized trace_id timestamp kpi_type kpi_ids metadata
                     mapping ids)).
  { intros mapping. subst kpi_ids. destruct ids as [|id ids']; [reflexivity|].
    cbn [truthy map negb iterate bind].
    now rewrite (collect_updates_normalized _ _ _ _ _ _ (id :: ids') []). }
  repeat split; try reflexivity.
  - apply (Hwalk (CBBIData.to_dict cbbi)).
  - apply (Hwalk (CMCData.to_dict cmc)).
  - apply in_normalized.
  - apply in_normalized.
Qed.

(** ** Construction of the canonical success record *)

Lemma eq_str_false (v : value) (s : string) :
  eq_str v s = false <-> v <> VStr s.
Proof.
  destruct v; simpl; try (split; [discriminate | reflexivity]).
  rewrite String.eqb_neq. split; congruence.
Qed.

Lemma eq_str_true (v : value) (s : string) :
  eq_str v s = true <-> v = VStr s.
Proof.
  destruct v; simpl; try (split; discriminate).
  rewrite String.eqb_eq. split; congruence.
Qed.

Lemma check_required_first_missing (d : dict) (pre post : list string) (f : string) :
  (forall g, In g pre -> dict_contains g d = true) ->
  dict_contains f d = false ->
  KPIDataUpdate.check_required (pre ++ f :: post) d
  = Raise (ValueError (KPIDataUpdate.missing_message f)).
Proof.
  intros Hpre Hf. induction pre as [|g pre IH]; simpl.
  - now rewrite Hf.
  - rewrite (Hpre g) by now left. simpl. apply IH.
    intros g' Hg'. apply Hpre. now right.
Qed.

Lemma check_required_present (d : dict) (fields : list string) :
  (forall g, In g fields -> dict_contains g d = true) ->
  KPIDataUpdate.check_required fields d = Ok tt.
Proof.
  induction fields as [|g fields IH]; simpl; intros H; auto.
  rewrite (H g) by now left. simpl. apply IH. intros g' Hg'. apply H. now right.
Qed.

Lemma first_missing (d : dict) (fields : list string) (f : string) :
  In f fields -> dict_contains f d = false ->
  exists pre g post,
    fields = pre ++ g :: post
    /\ (forall h, In h pre -> dict_contains h d = true)
    /\ dict_contains g d = false.
Proof.
  induction fields as [|h fields IH]; simpl; [tauto|].
  intros Hin Hf. destruct (dict_contains h d) eqn:E.
  - destruct Hin as [-> | Hin]; [congruence|].
    destruct (IH Hin Hf) as (pre & g & post & -> & Hpre & Hg).
    exists (h :: pre), g, post. split; [reflexivity|]. split; [|exact Hg].
    intros h' [<- | Hh']; auto.
  - exists [], h, fields. split; [reflexivity|]. split; [intros h' []|exact E].
Qed.

Lemma parse_chart_no_value_error (d : dict) (msg : string) :
  parse_chart d <> Raise (ValueError msg).
Proof.
  unfold parse_chart, dict_contains, dict_getitem.
  destruct (dict_find "chart" d) as [v|]; simpl; [|discriminate].
  destruct (truthy v); simpl; [|discriminate].
  destruct v; simpl; try discriminate.
  unfold dict_getitem. destruct (dict_find "url" d0); simpl; discriminate.
Qed.

(** C5: [KPIDataUpdate.from_dict] fails with the missing-field error naming
    the first of ["traceId"], ["kpiId"], ["timestamp"], ["kpiType"], ["data"]
    (in this order) that the mapping lacks; so whenever one is absent it
    fails naming an absent field, a mapping lacking only ["data"] fails
    naming ["data"], and when all five are present no missing-field error is
    raised. *)
Theorem from_dict_missing_field (d : dict) :
  (forall pre f post,
      KPIDataUpdate.required_fields = pre ++ f :: post ->
      (forall g, In g pre -> dict_contains g d = true) ->
      dict_contains f d = false ->
      KPIDataUpdate.from_dict d
      = Raise (ValueError ("Required field '" ++ f ++ "' missing from KPI data")%string))
  /\ (forall f,
        In f ["traceId"; "kpiId"; "timestamp"; "kpiType"; "data"] ->
        dict_contains f d = false ->
        exists g,
          In g ["traceId"; "kpiId"; "timestamp"; "kpiType"; "data"]
          /\ dict_contains g d = false
          /\ KPIDataUpdate.from_dict d
             = Raise (ValueError
                        ("Required field '" ++ g ++ "' missing from KPI data")%string))
  /\ ((forall g, In g ["traceId"; "kpiId"; "timestamp"; "kpiType"] ->
                 dict_contains g d = true) ->
      dict_contains "data" d = false ->
      KPIDataUpdate.from_dict d
      = Raise (ValueError "Required field 'data' missing from KPI data"))
  /\ ((forall g, In g ["traceId"; "kpiId"; "timestamp"; "kpiType"; "data"] ->
                 dict_contains g d = true) ->
      forall msg, KPIDataUpdate.from_dict d <> Raise (ValueError msg)).
Proof.
  assert (Hfirst : forall pre f post,
             KPIDataUpdate.required_fields = pre ++ f :: post ->
             (forall g, In g pre -> dict_contains g d = true) ->
             dict_contains f d = false ->
             KPIDataUpdate.from_dict d
             = Raise (ValueError (KPIDataUpdate.missing_message f))).
  { intros pre f post Heq Hpre Hf. unfold KPIDataUpdate.from_dict.
    rewrite Heq, (check_required_first_missing d pre post f Hpre Hf).
    reflexivity. }
  split; [exact Hfirst|]. split; [|split].
  - intros f Hin Hf.
    destruct (first_missing d _ f Hin Hf) as (pre & g & post & Heq & Hpre & Hg).
    exists g. split; [|split; auto].
    + rewrite Heq. apply in_elt.
    + now apply (Hfirst pre g post).
  - intros Hpre Hdata.
    now apply (Hfirst ["traceId"; "kpiId"; "timestamp"; "kpiType"] "data" []).
  - intros Hall msg. unfold KPIDataUpdate.from_dict.
    rewrite (check_required_present d KPIDataUpdate.required_fields Hall). simpl.
    pose proof (parse_chart_no_value_error d msg) as Hc.
    destruct (parse_chart d) as [c|e]; simpl; [|congruence].
    destruct (dict_getitem_contains "traceId" d) as (v1 & -> & _);
      [apply Hall; simpl; tauto|].
    destruct (dict_getitem_contains "kpiId" d) as (v2 & -> & _);
      [apply Hall; simpl; tauto|].
    destruct (dict_getitem_contains "timestamp" d) as (v3 & -> & _);
      [apply Hall; simpl; tauto|].
    destruct (dict_getitem_contains "kpiType" d) as (v4 & -> & _);
      [apply Hall; simpl; tauto|].
    destruct (dict_getitem_contains "data" d) as (v5 & -> & _);
      [apply Hall; simpl; tauto|].
    simpl. discriminate.
Qed.

Lemma from_dict_missing_field_witness :
  KPIDataUpdate.from_dict lacks_data
  = Raise (ValueError "Required field 'data' missing from KPI data").
Proof.
  apply (proj1 (proj2 (proj2 (from_dict_missing_field lacks_data)))).
  - intros g [<- | [<- | [<- | [<- | []]]]]; reflexivity.
  - reflexivity.
Defined.

(** ** Parsing of multi-KPI responses and dispatch *)

Ltac raises_by Hc :=
  eexists;
  split;
  [ exact Hc
  | split;
    [ discriminate
    | split; [ intros; try reflexivity; intuition congruence
             | intros; congruence ] ] ].

Section ParseFacts.

Variable repr : value -> string.

Lemma parse_multi_cbbi_ok (d raw : dict) (trace_id timestamp : value) :
  dict_get "kpiType" d = VStr "cbbi-multi" ->
  dict_find "data" d = Some (VDict raw) -> raw <> [] ->
  dict_find "traceId" d = Some trace_id ->
  dict_find "timestamp" d = Some timestamp ->
  parse_multi_kpi_response repr d
  = Ok (CBBIMulti
          (CBBIMultiKPIResponse.mk trace_id timestamp (VStr "cbbi-multi")
             (dict_get "kpiIds" d)
             (Some (CBBIData.mk
                      (dict_get_default "cbbi-btc-price-usd" (VFloat 0) raw)
                      (dict_get_default "cbbi-rhodl" (VFloat 0) raw)
                      (dict_get_default "cbbi-mvrv" (VFloat 0) raw)
                      (dict_get_default "cbbi-confidence" (VFloat 0) raw)))
             (dict_get "metadata" d))).
Proof.
  intros Ht Hd Hne Htr Hts.
  unfold parse_multi_kpi_response, has_data, dict_contains, dict_getitem.
  rewrite Ht, Hd, Htr, Hts. simpl.
  destruct raw; [contradiction | reflexivity].
Qed.

Lemma parse_multi_cmc_ok (d raw : dict) (trace_id timestamp : value) :
  dict_get "kpiType" d = VStr "cmc-multi" ->
  dict_find "data" d = Some (VDict raw) -> raw <> [] ->
  dict_find "traceId" d = Some trace_id ->
  dict_find "timestamp" d = Some timestamp ->
  parse_multi_kpi_response repr d
  = Ok (CMCMulti
          (CMCMultiKPIResponse.mk trace_id timestamp (VStr "cmc-multi")
             (dict_get "kpiIds" d)
             (Some (CMCData.mk
                      (dict_get_default "cmc-btc-dominance" (VFloat 0) raw)
                      (dict_get_default "cmc-eth-dominance" (VFloat 0) raw)
                      (dict_get_default "cmc-totalmarketcap-usd" (VFloat 0) raw)
                      (dict_get_default "cmc-stablecoinmarketcap-usd" (VFloat 0) raw)))
             (dict_get "metadata" d))).
Proof.
  intros Ht Hd Hne Htr Hts.
  unfold parse_multi_kpi_response, has_data, dict_contains, dict_getitem.
  rewrite Ht, Hd, Htr, Hts. simpl.
  destruct raw; [contradiction | reflexivity].
Qed.

Lemma dict_get_default_cases (k : string) (default : value) (d : dict) :
  (dict_find k d = None -> dict_get_default k default d = default)
  /\ (forall v, dict_find k d = Some v -> dict_get_default k default d = v).
Proof.
  unfold dict_get_default. split; [intros -> | intros v ->]; reflexivity.
Qed.

(** What is left of [parse_multi_kpi_response] once the type is known: the
    conversion of ["data"], then the two unconditional lookups. *)
Lemma parse_multi_known_cases (d : dict) :
  dict_get "kpiType" d = VStr "cbbi-multi"
  \/ dict_get "kpiType" d = VStr "cmc-multi" ->
  match dict_find "data" d with
  | Some v =>
      if truthy v && negb (is_dict v)
      then parse_multi_kpi_response repr d = Raise AttributeError
      else
        match dict_find "traceId" d, dict_find "timestamp" d with
        | None, _ => parse_multi_kpi_response repr d = Raise (KeyError "traceId")
        | Some _, None =>
            parse_multi_kpi_response repr d = Raise (KeyError "timestamp")
        | Some _, Some _ => is_ok (parse_multi_kpi_response repr d) = true
        end
  | None =>
      match dict_find "traceId" d, dict_find "timestamp" d with
      | None, _ => parse_multi_kpi_response repr d = Raise (KeyError "traceId")
      | Some _, None =>
          parse_multi_kpi_response repr d = Raise (KeyError "timestamp")
      | Some _, Some _ => is_ok (parse_multi_kpi_response repr d) = true
      end
  end.
Proof.
  intros [Ht | Ht];
    unfold parse_multi_kpi_response, has_data, dict_contains, dict_getitem;
    rewrite Ht; simpl;
    destruct (dict_find "data" d) as [v|]; simpl;
    try (destruct v as [| b | z | f | s | l | raw]; simpl;
         try destruct b; try destruct (Z.eqb z 0);
         try destruct (PrimFloat.eqb f 0); try destruct (String.eqb s "");
         try destruct l; try destruct raw; simpl);
    destruct (dict_find "traceId" d); simpl; try reflexivity;
    destruct (dict_find "timestamp" d); simpl; reflexivity.
Qed.

End ParseFacts.

(** C6: when the value under ["kpiType"] is neither ["cbbi-multi"] nor
    ["cmc-multi"] (an absent key reads as [None]),
    [parse_multi_kpi_response] fails with the unknown-multi-KPI-type error
    whose message ends in the offending value: ["bogus-multi"] for that
    string, ["None"] for an absent key. *)
Theorem parse_multi_unknown_type (repr : value -> string) (d : dict) :
  (dict_get "kpiType" d <> VStr "cbbi-multi" ->
   dict_get "kpiType" d <> VStr "cmc-multi" ->
   parse_multi_kpi_response repr d
   = Raise (ValueError
              ("Unknown multi-KPI type: " ++ str repr (dict_get "kpiType" d))%string))
  /\ (dict_find "kpiType" d = Some (VStr "bogus-multi") ->
      parse_multi_kpi_response repr d
      = Raise (ValueError "Unknown multi-KPI type: bogus-multi"))
  /\ (dict_find "kpiType" d = None ->
      parse_multi_kpi_response repr d
      = Raise (ValueError "Unknown multi-KPI type: None")).
Proof.
  assert (H : dict_get "kpiType" d <> VStr "cbbi-multi" ->
              dict_get "kpiType" d <> VStr "cmc-multi" ->
              parse_multi_kpi_response repr d
              = Raise (ValueError (unknown_type_message repr (dict_get "kpiType" d)))).
  { intros H1 H2. unfold parse_multi_kpi_response.
    apply eq_str_false in H1, H2. now rewrite H1, H2. }
  split; [exact H|]. split; intros Hk.
  - rewrite H; unfold dict_get, dict_get_default; rewrite Hk;
      [reflexivity | discriminate | discriminate].
  - rewrite H; unfold dict_get, dict_get_default; rewrite Hk;
      [reflexivity | discriminate | discriminate].
Qed.

Lemma parse_multi_unknown_type_witness :
  dict_find "kpiType" bogus_multi = Some (VStr "bogus-multi")
  /\ (forall repr,
        parse_multi_kpi_response repr bogus_multi
        = Raise (ValueError "Unknown multi-KPI type: bogus-multi")).
Proof.
  split; [reflexivity|]. intros repr.
  apply (proj1 (proj2 (parse_multi_unknown_type repr bogus_multi))).
  reflexivity.
Defined.

(** C7, as stated, fails: a ["cbbi-multi"] mapping whose ["data"] is a
    non-empty mapping lacking three of the four keys, but which has no
    ["traceId"], makes [parse_multi_kpi_response] fail. *)
Lemma parse_multi_defaults_counterexample :
  dict_get "kpiType" partial_data_no_trace = VStr "cbbi-multi"
  /\ dict_find "data" partial_data_no_trace
     = Some (VDict [("cbbi-rhodl", VFloat 0.5)])
  /\ (forall repr,
        parse_multi_kpi_response repr partial_data_no_trace
        = Raise (KeyError "traceId")).
Proof. repeat split. Qed.

(** C7, amended: for a mapping of type ["cbbi-multi"] or ["cmc-multi"] that
    has ["traceId"] and ["timestamp"] and whose ["data"] is a non-empty
    mapping, [parse_multi_kpi_response] succeeds whichever numeric keys
    ["data"] lacks; each sub-field of the aggregate built is [0.0] when its
    key is absent and the given value when it is present. *)
Theorem parse_multi_defaults (repr : value -> string) (d raw : dict)
    (trace_id timestamp : value) :
  dict_find "data" d = Some (VDict raw) -> raw <> [] ->
  dict_find "traceId" d = Some trace_id ->
  dict_find "timestamp" d = Some timestamp ->
  (dict_get "kpiType" d = VStr "cbbi-multi" ->
   exists c,
     parse_multi_kpi_response repr d
     = Ok (CBBIMulti
             (CBBIMultiKPIResponse.mk trace_id timestamp (VStr "cbbi-multi")
                (dict_get "kpiIds" d) (Some c) (dict_get "metadata" d)))
     /\ forall key field,
          In (key, field) (CBBIData.to_dict c) ->
          (dict_find key raw = None -> field = VFloat 0)
          /\ (forall v, dict_find key raw = Some v -> field = v))
  /\ (dict_get "kpiType" d = VStr "cmc-multi" ->
      exists c,
        parse_multi_kpi_response repr d
        = Ok (CMCMulti
                (CMCMultiKPIResponse.mk trace_id timestamp (VStr "cmc-multi")
                   (dict_get "kpiIds" d) (Some c) (dict_get "metadata" d)))
        /\ forall key field,
             In (key, field) (CMCData.to_dict c) ->
             (dict_find key raw = None -> field = VFloat 0)
             /\ (forall v, dict_find key raw = Some v -> field = v)).
Proof.
  intros Hd Hne Htr Hts. split; intros Ht.
  - eexists. split.
    + exact (parse_multi_cbbi_ok repr d raw trace_id timestamp Ht Hd Hne Htr Hts).
    + intros key field [H | [H | [H | [H | []]]]]; inversion H; subst;
        apply dict_get_default_cases.
  - eexists. split.
    + exact (parse_multi_cmc_ok repr d raw trace_id timestamp Ht Hd Hne Htr Hts).
    + intros key field [H | [H | [H | [H | []]]]]; inversion H; subst;
        apply dict_get_default_cases.
Qed.

Lemma parse_multi_defaults_witness :
  dict_find "data" partial_data = Some (VDict [("cbbi-rhodl", VFloat 0.5)])
  /\ (forall repr, exists c,
        parse_multi_kpi_response repr partial_data
        = Ok (CBBIMulti
                (CBBIMultiKPIResponse.mk (VStr "trace_1")
                   (VStr "2025-08-14T14:30:22Z") (VStr "cbbi-multi")
                   VNone (Some c) VNone))
        /\ CBBIData.cbbi_rhodl c = VFloat 0.5
        /\ CBBIData.cbbi_mvrv c = VFloat 0).
Proof.
  split; [reflexivity|]. intros repr.
  destruct (parse_multi_defaults repr partial_data
              [("cbbi-rhodl", VFloat 0.5)]
              (VStr "trace_1") (VStr "2025-08-14T14:30:22Z")) as [Hcbbi _];
    try reflexivity; try discriminate.
  destruct (Hcbbi eq_refl) as (c & Hc & Hfields).
  exists c. split; [exact Hc|]. split.
  - refine (proj2 (Hfields "cbbi-rhodl" _ _) _ eq_refl). simpl. tauto.
  - refine (proj1 (Hfields "cbbi-mvrv" _ _) eq_refl). simpl. tauto.
Defined.

(** C8: [parse_kpi_response] tests the type first: a mapping of type
    ["cbbi-multi"] or ["cmc-multi"] goes to [parse_multi_kpi_response]
    whether or not it has a ["kpiId"] key, and never yields an individual
    response; any other mapping with a ["kpiId"] key goes to
    [parse_individual_kpi_response]; every remaining mapping fails with the
    indeterminate-shape error. *)
Theorem parse_kpi_response_dispatch (repr : value -> string) (d : dict) :
  (dict_get "kpiType" d = VStr "cbbi-multi"
   \/ dict_get "kpiType" d = VStr "cmc-multi" ->
   parse_kpi_response repr d
   = (r <- parse_multi_kpi_response repr d ;; Ok (Multi r))
   /\ forall r, parse_kpi_response repr d <> Ok (Individual r))
  /\ (dict_get "kpiType" d <> VStr "cbbi-multi" ->
      dict_get "kpiType" d <> VStr "cmc-multi" ->
      dict_contains "kpiId" d = true ->
      parse_kpi_response repr d
      = (r <- parse_individual_kpi_response d ;; Ok (Individual r)))
  /\ (dict_get "kpiType" d <> VStr "cbbi-multi" ->
      dict_get "kpiType" d <> VStr "cmc-multi" ->
      dict_contains "kpiId" d = false ->
      parse_kpi_response repr d
      = Raise (ValueError
                 "Cannot determine KPI response type from data structure")).
Proof.
  unfold parse_kpi_response. simpl existsb. split; [|split].
  - intros Ht.
    assert (E : eq_str (dict_get "kpiType" d) "cbbi-multi"
                || (eq_str (dict_get "kpiType" d) "cmc-multi" || false) = true).
    { destruct Ht as [-> | ->]; reflexivity. }
    rewrite E. split; [reflexivity|].
    intros r. destruct (parse_multi_kpi_response repr d); simpl; discriminate.
  - intros H1 H2 Hk. apply eq_str_false in H1, H2. now rewrite H1, H2, Hk.
  - intros H1 H2 Hk. apply eq_str_false in H1, H2. now rewrite H1, H2, Hk.
Qed.

Lemma parse_kpi_response_dispatch_witness :
  dict_contains "kpiId" multi_with_kpi_id = true
  /\ (forall repr,
        parse_kpi_response repr multi_with_kpi_id
        = Ok (Multi
                (CBBIMulti
                   (CBBIMultiKPIResponse.mk (VStr "trace_1")
                      (VStr "2025-08-14T14:30:22Z") (VStr "cbbi-multi")
                      VNone None VNone)))).
Proof.
  split; [reflexivity|]. intros repr.
  destruct (proj1 (parse_kpi_response_dispatch repr multi_with_kpi_id)) as [H _].
  - left. reflexivity.
  - rewrite H. reflexivity.
Defined.

(** C9, as stated, fails: with a ["data"] entry that is a non-empty string
    the conversion of ["data"] raises an attribute error before ["traceId"]
    is ever looked up, so the absent key does not show as a key-lookup
    failure. *)
Lemma parse_multi_key_lookup_counterexample :
  dict_get "kpiType" string_data_no_trace = VStr "cbbi-multi"
  /\ dict_find "traceId" string_data_no_trace = None
  /\ (forall repr key,
        parse_multi_kpi_response repr string_data_no_trace = Raise AttributeError
        /\ parse_multi_kpi_response repr string_data_no_trace
           <> Raise (KeyError key)).
Proof. repeat split. discriminate. Qed.

(** C9, amended: for a mapping of type ["cbbi-multi"] or ["cmc-multi"] with
    ["traceId"] or ["timestamp"] absent, [parse_multi_kpi_response] fails,
    and never with a [ValueError] naming a missing field: when the ["data"]
    entry is absent, falsy or a mapping the failure is the key-lookup error
    of the first absent key (["traceId"] before ["timestamp"]); when it is
    a truthy non-mapping the call has already failed with an attribute
    error.  Hence success requires both keys. *)
Theorem parse_multi_key_lookup (repr : value -> string) (d : dict) :
  dict_get "kpiType" d = VStr "cbbi-multi"
  \/ dict_get "kpiType" d = VStr "cmc-multi" ->
  (dict_find "traceId" d = None \/ dict_find "timestamp" d = None ->
   exists e,
     parse_multi_kpi_response repr d = Raise e
     /\ (forall msg, e <> ValueError msg)
     /\ (match dict_find "data" d with
         | Some v => truthy v = false \/ is_dict v = true
         | None => True
         end ->
         e = KeyError (match dict_find "traceId" d with
                       | None => "traceId"
                       | Some _ => "timestamp"
                       end))
     /\ (forall v, dict_find "data" d = Some v ->
                   truthy v = true -> is_dict v = false -> e = AttributeError))
  /\ (is_ok (parse_multi_kpi_response repr d) = true ->
      dict_contains "traceId" d = true /\ dict_contains "timestamp" d = true).
Proof.
  intros Ht. pose proof (parse_multi_known_cases repr d Ht) as Hc.
  unfold dict_contains.
  destruct (dict_find "data" d) as [v|].
  - destruct (truthy v) eqn:Etr; destruct (is_dict v) eqn:Edi; simpl in Hc.
    all: destruct (dict_find "traceId" d) as [tr|];
      destruct (dict_find "timestamp" d) as [ts|]; split.
    all: try (intros [Habs | Habs]; try discriminate Habs; raises_by Hc).
    all: try (intros [Habs | Habs]; discriminate Habs).
    all: try (rewrite Hc; simpl; discriminate).
    all: try (intros _; split; reflexivity).
  - destruct (dict_find "traceId" d) as [tr|];
      destruct (dict_find "timestamp" d) as [ts|]; split.
    all: try (intros [Habs | Habs]; try discriminate Habs; raises_by Hc).
    all: try (intros [Habs | Habs]; discriminate Habs).
    all: try (rewrite Hc; simpl; discriminate).
    all: try (intros _; split; reflexivity).
Qed.

Lemma parse_multi_key_lookup_witness :
  dict_find "traceId" no_trace = None
  /\ (forall repr,
        parse_multi_kpi_response repr no_trace = Raise (KeyError "traceId")).
Proof.
  split; [reflexivity|]. intros repr.
  destruct (parse_multi_key_lookup repr no_trace) as [H _].
  - right. reflexivity.
  - destruct H as (e & He & _ & Hkey & _).
    + left. reflexivity.
    + rewrite He. f_equal. apply Hkey. right. reflexivity.
Defined.

(** ** The error record *)

(** C3, as stated, fails: an empty ["message"] is not null, yet
    [get_error_message] passes over it and returns the ["error"] entry. *)
Lemma get_error_message_counterexample :
  (forall repr, message_as_specified repr empty_message = VStr "")
  /\ (forall repr, KPIErrorUpdate.get_error_message repr empty_message = VStr "E")
  /\ (forall repr,
        KPIErrorUpdate.get_error_message repr empty_message
        <> message_as_specified repr empty_message).
Proof. repeat split. discriminate. Qed.

(** C3, amended: when [error] is a mapping, [get_error_message] returns the
    first truthy (not null, empty, zero or false) of its ["message"],
    ["error"], ["description"] entries, in this order, and the mapping's
    stringified form when none is truthy; when [error] is not a mapping it
    returns its stringified form.  For [{"message": "M", "error": "E"}] it
    returns ["M"]. *)
Theorem get_error_message_first_truthy (repr : value -> string)
    (self : KPIErrorUpdate.t) :
  KPIErrorUpdate.get_error_message repr self
  = match KPIErrorUpdate.error self with
    | VDict e =>
        match first_truthy
                [dict_get "message" e; dict_get "error" e;
                 dict_get "description" e]
        with
        | Some v => v
        | None => VStr (str repr (VDict e))
        end
    | v => VStr (str repr v)
    end
  /\ (KPIErrorUpdate.error self
      = VDict [("message", VStr "M"); ("error", VStr "E")] ->
      KPIErrorUpdate.get_error_message repr self = VStr "M").
Proof.
  unfold KPIErrorUpdate.get_error_message. split.
  - destruct (KPIErrorUpdate.error self) as [| | | | | |e]; try reflexivity.
    unfold py_or. simpl.
    destruct (truthy (dict_get "message" e)); [reflexivity|].
    destruct (truthy (dict_get "error" e)); [reflexivity|].
    destruct (truthy (dict_get "description" e)); reflexivity.
  - intros ->. reflexivity.
Qed.

Lemma get_error_message_first_truthy_witness :
  KPIErrorUpdate.error message_and_error
  = VDict [("message", VStr "M"); ("error", VStr "E")]
  /\ (forall repr,
        KPIErrorUpdate.get_error_message repr message_and_error = VStr "M").
Proof.
  split; [reflexivity|]. intros repr.
  apply (proj2 (get_error_message_first_truthy repr message_and_error)).
  reflexivity.
Defined.

(** C4, as stated, fails: an additional field named ["traceId"] replaces
    the record's own trace id in the serialized mapping. *)
Lemma to_dict_collision_counterexample :
  str_in "traceId" KPIErrorUpdate.known_fields = true
  /\ KPIErrorUpdate.to_dict colliding
     = [("traceId", VStr "other"); ("error", VStr "boom")]
  /\ dict_find "traceId" (KPIErrorUpdate.to_dict colliding)
     <> Some (KPIErrorUpdate.trace_id colliding).
Proof. repeat split. discriminate. Qed.

(** C4, amended: [to_dict] emits every key of [additional_fields], a key of
    the known set included, with the additional field's value: the merge
    comes last and overwrites what was written first. *)
Theorem to_dict_collision (self : KPIErrorUpdate.t) (extra : dict)
    (k : string) (v : value) :
  KPIErrorUpdate.additional_fields self = Some extra ->
  dict_ok extra ->
  In (k, v) extra ->
  dict_find k (KPIErrorUpdate.to_dict self) = Some v.
Proof.
  intros Hextra Hok Hin. unfold KPIErrorUpdate.to_dict. rewrite Hextra.
  destruct extra as [|kv extra']; [contradiction|].
  cbn [truthy]. now apply dict_find_update_in.
Qed.

Lemma to_dict_collision_witness :
  In "traceId" KPIErrorUpdate.known_fields
  /\ dict_find "traceId" (KPIErrorUpdate.to_dict colliding) = Some (VStr "other").
Proof.
  split; [simpl; tauto|].
  apply (to_dict_collision colliding [("traceId", VStr "other")]).
  - reflexivity.
  - repeat constructor. simpl. tauto.
  - simpl. tauto.
Defined.

(** ** Serialization of the error record *)

Section ErrorToDict.

Variable self : KPIErrorUpdate.t.

Lemma to_dict_known_part :
  KPIErrorUpdate.to_dict self
  = match KPIErrorUpdate.additional_fields self with
    | Some extra =>
        if truthy (VDict extra) then dict_update (known_part self) extra
        else known_part self
    | None => known_part self
    end.
Proof. reflexivity. Qed.

Lemma known_part_trace_id :
  dict_find "traceId" (known_part self) = Some (KPIErrorUpdate.trace_id self).
Proof.
  unfold known_part, KPIErrorUpdate.to_dict. cbn [KPIErrorUpdate.additional_fields].
  now rewrite !dict_find_when_other by reflexivity.
Qed.

Lemma known_part_error :
  dict_find "error" (known_part self) = Some (KPIErrorUpdate.error self).
Proof.
  unfold known_part, KPIErrorUpdate.to_dict. cbn [KPIErrorUpdate.additional_fields].
  now rewrite !dict_find_when_other by reflexivity.
Qed.

Lemma known_part_retry_count :
  dict_find "retryCount" (known_part self)
  = if is_none (KPIErrorUpdate.retry_count self) then None
    else Some (KPIErrorUpdate.retry_count self).
Proof.
  unfold known_part, KPIErrorUpdate.to_dict.
  cbn [KPIErrorUpdate.additional_fields KPIErrorUpdate.retry_count].
  rewrite !dict_find_when_other by reflexivity.
  rewrite dict_find_when_same.
  rewrite !dict_find_when_other by reflexivity.
  now destruct (is_none (KPIErrorUpdate.retry_count self)).
Qed.

Lemma known_part_optional (k : string) (v : value) :
  In (k, v) (optional_fields self) ->
  dict_find k (known_part self) = if truthy v then Some v else None.
Proof.
  unfold known_part, KPIErrorUpdate.to_dict, optional_fields.
  cbn [KPIErrorUpdate.additional_fields KPIErrorUpdate.timestamp
       KPIErrorUpdate.kpi_id KPIErrorUpdate.kpi_ids KPIErrorUpdate.component
       KPIErrorUpdate.workflow_id KPIErrorUpdate.execution_id
       KPIErrorUpdate.retry_count KPIErrorUpdate.trace_id KPIErrorUpdate.error].
  intros [H | [H | [H | [H | [H | [H | []]]]]]]; inversion H; subst; clear H;
    rewrite ?dict_find_when_other by reflexivity;
    rewrite dict_find_when_same;
    rewrite ?dict_find_when_other by reflexivity;
    reflexivity.
Qed.

Lemma known_part_keys (k : string) :
  dict_find k (known_part self) <> None -> In k KPIErrorUpdate.known_fields.
Proof.
  unfold known_part, KPIErrorUpdate.to_dict.
  cbn [KPIErrorUpdate.additional_fields].
  intros Hk.
  destruct (in_dec string_dec k KPIErrorUpdate.known_fields) as [|Hout]; auto.
  exfalso. apply Hk.
  assert (Hne : forall k', In k' KPIErrorUpdate.known_fields ->
                           String.eqb k k' = false).
  { intros k' Hk'. apply String.eqb_neq. intros ->. contradiction. }
  rewrite !dict_find_when_other by (apply Hne; simpl; tauto).
  simpl. rewrite !Hne by (simpl; tauto). reflexivity.
Qed.

End ErrorToDict.

Lemma dict_find_update_keeps (k : string) (d e : dict) :
  dict_find k d <> None -> dict_find k (dict_update d e) <> None.
Proof.
  unfold dict_update. revert d.
  induction e as [|[k' v'] e IH]; simpl; intros d Hd; auto.
  apply IH. destruct (String.eqb k k') eqn:E.
  - apply String.eqb_eq in E. subst. rewrite dict_find_setitem_same. discriminate.
  - now rewrite dict_find_setitem_other.
Qed.

Lemma str_in_true (k : string) (ks : list string) :
  str_in k ks = true <-> In k ks.
Proof.
  unfold str_in. rewrite existsb_exists. split.
  - intros (x & Hin & Heq). apply String.eqb_eq in Heq. now subst.
  - intros Hin. exists k. split; auto. apply String.eqb_refl.
Qed.

Lemma filter_unknown_none (ks : list string) (d : dict) :
  (forall k, In k (dict_keys d) -> In k ks) ->
  filter (fun kv => negb (str_in (fst kv) ks)) d = [].
Proof.
  induction d as [|[k v] d IH]; simpl; intros H; auto.
  rewrite (proj2 (str_in_true k ks)) by auto. simpl. auto.
Qed.

Lemma filter_unknown_all (ks : list string) (d : dict) :
  (forall k, In k (dict_keys d) -> ~ In k ks) ->
  filter (fun kv => negb (str_in (fst kv) ks)) d = d.
Proof.
  induction d as [|[k v] d IH]; simpl; intros H; auto.
  destruct (str_in k ks) eqn:E.
  - apply str_in_true in E. exfalso. now apply (H k); [left|].
  - simpl. f_equal. auto.
Qed.

Lemma known_part_only_known (self : KPIErrorUpdate.t) (k : string) :
  In k (dict_keys (known_part self)) -> In k KPIErrorUpdate.known_fields.
Proof.
  intros Hin. apply (known_part_keys self). intros Hnone.
  now apply dict_find_none in Hnone.
Qed.

Lemma validate_truthy (self : KPIErrorUpdate.t) :
  KPIErrorUpdate.validate self = true ->
  truthy (KPIErrorUpdate.trace_id self) = true
  /\ truthy (KPIErrorUpdate.error self) = true.
Proof.
  unfold KPIErrorUpdate.validate.
  destruct (truthy (KPIErrorUpdate.trace_id self)),
    (truthy (KPIErrorUpdate.error self)); simpl; auto; discriminate.
Qed.

(** The serialized form of a validly constructed error record: the known
    part followed by the additional fields, in their order. *)
Lemma to_dict_valid (self : KPIErrorUpdate.t) :
  validly_constructed self ->
  exists extra,
    KPIErrorUpdate.to_dict self = known_part self ++ extra
    /\ (forall k, In k (dict_keys extra) -> ~ In k KPIErrorUpdate.known_fields)
    /\ (if truthy (VDict extra) then Some extra else None)
       = KPIErrorUpdate.additional_fields self.
Proof.
  intros (_ & Hextra). rewrite to_dict_known_part.
  destruct (KPIErrorUpdate.additional_fields self) as [extra|].
  - destruct Hextra as (Hne & Hok & Hunknown). exists extra.
    destruct extra as [|kv extra']; [contradiction|]. cbn [truthy].
    split; [|split; auto].
    apply dict_update_disjoint; auto.
    intros k Hk. destruct (dict_find k (known_part self)) eqn:E; auto.
    exfalso. apply (Hunknown k Hk). apply (known_part_keys self). congruence.
  - exists []. rewrite app_nil_r. repeat split. intros k [].
Qed.

Lemma error_round_trip (self : KPIErrorUpdate.t) :
  validly_constructed self ->
  exists self',
    KPIErrorUpdate.from_dict (KPIErrorUpdate.to_dict self) = Ok self'
    /\ KPIErrorUpdate.trace_id self' = KPIErrorUpdate.trace_id self
    /\ KPIErrorUpdate.kpi_id self'
       = (if truthy (KPIErrorUpdate.kpi_id self)
          then KPIErrorUpdate.kpi_id self else VNone)
    /\ KPIErrorUpdate.error self' = KPIErrorUpdate.error self
    /\ KPIErrorUpdate.additional_fields self'
       = KPIErrorUpdate.additional_fields self.
Proof.
  intros Hvalid.
  destruct (to_dict_valid self Hvalid) as (extra & -> & Hunknown & Hextra).
  destruct Hvalid as (Hval & _).
  destruct (validate_truthy self Hval) as [Htrace Herror].
  unfold KPIErrorUpdate.from_dict, dict_get, dict_get_default.
  rewrite !dict_find_app, known_part_trace_id, known_part_error.
  rewrite Htrace, Herror. cbn [negb].
  eexists. split; [reflexivity|].
  cbn [KPIErrorUpdate.trace_id KPIErrorUpdate.kpi_id KPIErrorUpdate.error
       KPIErrorUpdate.additional_fields].
  repeat split.
  - rewrite (known_part_optional self "kpiId" (KPIErrorUpdate.kpi_id self))
      by (simpl; tauto).
    destruct (truthy (KPIErrorUpdate.kpi_id self)); [reflexivity|].
    destruct (dict_find "kpiId" extra) eqn:E; [|reflexivity].
    exfalso. apply (Hunknown "kpiId"); [|simpl; tauto].
    apply dict_find_some_in. congruence.
  - rewrite filter_app, filter_unknown_none, filter_unknown_all; auto.
    apply known_part_only_known.
Qed.

(** ** Round trip and omission *)

Lemma data_round_trip (self : KPIDataUpdate.t) :
  exists self',
    KPIDataUpdate.from_dict (KPIDataUpdate.to_dict self) = Ok self'
    /\ KPIDataUpdate.trace_id self' = KPIDataUpdate.trace_id self
    /\ KPIDataUpdate.kpi_id self' = KPIDataUpdate.kpi_id self
    /\ KPIDataUpdate.data self' = KPIDataUpdate.data self
    /\ KPIDataUpdate.kpi_ids self'
       = (if truthy (KPIDataUpdate.kpi_ids self)
          then KPIDataUpdate.kpi_ids self else VNone).
Proof.
  destruct self as [tr id ts ty da ids [c|] md];
    unfold KPIDataUpdate.to_dict;
    cbn [KPIDataUpdate.kpi_ids KPIDataUpdate.chart KPIDataUpdate.metadata
         KPIDataUpdate.trace_id KPIDataUpdate.kpi_id KPIDataUpdate.timestamp
         KPIDataUpdate.kpi_type KPIDataUpdate.data];
    destruct (truthy ids), (truthy md);
    (eexists; split; [reflexivity|]; repeat split).
Qed.

Lemma from_dict_extra_not_empty (d : dict) (self : KPIErrorUpdate.t) :
  KPIErrorUpdate.from_dict d = Ok self ->
  KPIErrorUpdate.additional_fields self <> Some [].
Proof.
  unfold KPIErrorUpdate.from_dict.
  destruct (negb (truthy (dict_get "traceId" d))); [discriminate|].
  destruct (negb (truthy (dict_get_default "error" (VDict []) d)));
    [discriminate|].
  intros H. inversion H; subst; clear H.
  cbn [KPIErrorUpdate.additional_fields].
  destruct (filter _ d); simpl; discriminate.
Qed.

(** C2, as stated, fails: the error record with [kpi_id = ""] passes
    [validate] and has no additional fields (it is what [from_dict] returns
    for [{"traceId": "trace_1", "error": "boom", "kpiId": ""}]), yet its
    KPI id comes back from the round trip as [None]. *)
Lemma round_trip_counterexample :
  KPIErrorUpdate.validate empty_kpi_id = true
  /\ validly_constructed empty_kpi_id
  /\ KPIErrorUpdate.from_dict
       [("traceId", VStr "trace_1"); ("error", VStr "boom"); ("kpiId", VStr "")]
     = Ok empty_kpi_id
  /\ exists e',
       KPIErrorUpdate.from_dict (KPIErrorUpdate.to_dict empty_kpi_id) = Ok e'
       /\ KPIErrorUpdate.kpi_id e' = VNone
       /\ KPIErrorUpdate.kpi_id e' <> KPIErrorUpdate.kpi_id empty_kpi_id.
Proof.
  split; [reflexivity|]. split; [split; [reflexivity | exact I]|].
  split; [reflexivity|]. eexists. split; [reflexivity|].
  split; [reflexivity | discriminate].
Qed.

(** C2, amended: serializing and parsing back a success record reproduces
    its trace id, KPI id and data; for a validly constructed error record
    it reproduces the trace id, the error and the additional fields, in
    particular [None] for a record without additional fields, and the KPI
    id when that is [None] or truthy, a falsy KPI id coming back as
    [None]; and no parsed error record has an empty mapping of additional
    fields. *)
Theorem round_trip (r : KPIDataUpdate.t) (e : KPIErrorUpdate.t) :
  validly_constructed e ->
  (exists r',
      KPIDataUpdate.from_dict (KPIDataUpdate.to_dict r) = Ok r'
      /\ KPIDataUpdate.trace_id r' = KPIDataUpdate.trace_id r
      /\ KPIDataUpdate.kpi_id r' = KPIDataUpdate.kpi_id r
      /\ KPIDataUpdate.data r' = KPIDataUpdate.data r)
  /\ (exists e',
        KPIErrorUpdate.from_dict (KPIErrorUpdate.to_dict e) = Ok e'
        /\ KPIErrorUpdate.trace_id e' = KPIErrorUpdate.trace_id e
        /\ KPIErrorUpdate.error e' = KPIErrorUpdate.error e
        /\ KPIErrorUpdate.additional_fields e'
           = KPIErrorUpdate.additional_fields e
        /\ KPIErrorUpdate.kpi_id e'
           = (if truthy (KPIErrorUpdate.kpi_id e)
              then KPIErrorUpdate.kpi_id e else VNone)
        /\ (KPIErrorUpdate.kpi_id e = VNone
            \/ truthy (KPIErrorUpdate.kpi_id e) = true ->
            KPIErrorUpdate.kpi_id e' = KPIErrorUpdate.kpi_id e))
  /\ (forall d e',
        KPIErrorUpdate.from_dict d = Ok e' ->
        KPIErrorUpdate.additional_fields e' <> Some []).
Proof.
  intros Hvalid. split; [|split].
  - destruct (data_round_trip r) as (r' & H1 & H2 & H3 & H4 & _). eauto.
  - destruct (error_round_trip e Hvalid) as (e' & H & Htr & Hid & Herr & Hextra).
    exists e'. repeat (split; [assumption|]).
    rewrite Hid. intros [-> | ->]; reflexivity.
  - apply from_dict_extra_not_empty.
Qed.

Lemma sample_error_valid : validly_constructed sample_error.
Proof.
  split; [reflexivity|].
  split; [discriminate|]. split.
  - repeat constructor. simpl. tauto.
  - intros k [<- | []] Hin. simpl in Hin.
    repeat (destruct Hin as [Hin | Hin]; [discriminate Hin|]). exact Hin.
Defined.

Lemma round_trip_witness :
  exists e',
    KPIErrorUpdate.from_dict (KPIErrorUpdate.to_dict sample_error) = Ok e'
    /\ KPIErrorUpdate.trace_id e' = VStr "trace_complex"
    /\ KPIErrorUpdate.kpi_id e' = VStr "test-kpi"
    /\ KPIErrorUpdate.additional_fields e'
       = Some [("customField", VStr "custom_value")].
Proof.
  destruct (round_trip sample_update sample_error sample_error_valid)
    as (_ & (e' & H & H1 & _ & H3 & H2 & _) & _).
  exists e'. auto.
Defined.

(** C10, as stated, fails: the [timestamp] field is [None], yet the
    serialized error record has a ["timestamp"] key, brought back by the
    merge of the additional fields. *)
Lemma to_dict_omits_falsy_counterexample :
  truthy (KPIErrorUpdate.timestamp extra_timestamp) = false
  /\ dict_contains "timestamp" (KPIErrorUpdate.to_dict extra_timestamp) = true.
Proof. split; reflexivity. Qed.

(** C10, amended: [to_dict] emits ["kpiIds"] and ["metadata"] of a success
    record exactly when the field is truthy (and ["chart"] exactly when a
    chart is set); in an error record each of ["timestamp"], ["kpiId"],
    ["kpiIds"], ["component"], ["workflowId"], ["executionId"] is emitted
    exactly when its field is truthy, unless [additional_fields] itself
    carries that key; ["retryCount"] is emitted whenever [retry_count] is
    not [None], so with value [0] too.  A success record with
    [kpi_ids = []] serializes as one with [kpi_ids = None] and parses back
    with [kpi_ids = None]. *)
Theorem to_dict_omits_falsy (r : KPIDataUpdate.t) (e : KPIErrorUpdate.t) :
  dict_contains "kpiIds" (KPIDataUpdate.to_dict r)
  = truthy (KPIDataUpdate.kpi_ids r)
  /\ dict_contains "metadata" (KPIDataUpdate.to_dict r)
     = truthy (KPIDataUpdate.metadata r)
  /\ dict_contains "chart" (KPIDataUpdate.to_dict r)
     = match KPIDataUpdate.chart r with Some _ => true | None => false end
  /\ (forall k v,
        In (k, v) (optional_fields e) -> ~ In k (extra_keys e) ->
        dict_contains k (KPIErrorUpdate.to_dict e) = truthy v)
  /\ (KPIErrorUpdate.retry_count e <> VNone ->
      dict_contains "retryCount" (KPIErrorUpdate.to_dict e) = true)
  /\ (KPIErrorUpdate.retry_count e = VInt 0 -> ~ In "retryCount" (extra_keys e) ->
      dict_find "retryCount" (KPIErrorUpdate.to_dict e) = Some (VInt 0))
  /\ (KPIErrorUpdate.retry_count e = VNone -> ~ In "retryCount" (extra_keys e) ->
      dict_contains "retryCount" (KPIErrorUpdate.to_dict e) = false)
  /\ KPIDataUpdate.to_dict (with_kpi_ids r (VList []))
     = KPIDataUpdate.to_dict (with_kpi_ids r VNone)
  /\ exists r',
       KPIDataUpdate.from_dict (KPIDataUpdate.to_dict (with_kpi_ids r (VList [])))
       = Ok r'
       /\ KPIDataUpdate.kpi_ids r' = VNone.
Proof.
  assert (Hout : forall k,
             ~ In k (extra_keys e) ->
             dict_find k (KPIErrorUpdate.to_dict e) = dict_find k (known_part e)).
  { intros k Hk. rewrite to_dict_known_part. unfold extra_keys in Hk.
    destruct (KPIErrorUpdate.additional_fields e) as [extra|]; auto.
    destruct (truthy (VDict extra)); auto.
    now apply dict_find_update_out. }
  split; [|split; [|split; [|split; [|split; [|split; [|split; [|split]]]]]]].
  - destruct r as [tr id ts ty da ids [c|] md]; unfold KPIDataUpdate.to_dict;
      simpl; destruct (truthy ids), (truthy md); reflexivity.
  - destruct r as [tr id ts ty da ids [c|] md]; unfold KPIDataUpdate.to_dict;
      simpl; destruct (truthy ids), (truthy md); reflexivity.
  - destruct r as [tr id ts ty da ids [c|] md]; unfold KPIDataUpdate.to_dict;
      simpl; destruct (truthy ids), (truthy md); reflexivity.
  - intros k v Hin Hk. unfold dict_contains.
    rewrite (Hout k Hk), (known_part_optional e k v Hin).
    now destruct (truthy v).
  - intros Hrc. unfold dict_contains.
    assert (Hk : dict_find "retryCount" (known_part e) <> None).
    { rewrite known_part_retry_count.
      destruct (KPIErrorUpdate.retry_count e); simpl; congruence. }
    assert (Hd : dict_find "retryCount" (KPIErrorUpdate.to_dict e) <> None).
    { rewrite to_dict_known_part.
      destruct (KPIErrorUpdate.additional_fields e) as [extra|]; auto.
      destruct (truthy (VDict extra)); auto.
      now apply dict_find_update_keeps. }
    destruct (dict_find "retryCount" (KPIErrorUpdate.to_dict e)); congruence.
  - intros Hrc Hk. rewrite (Hout _ Hk), known_part_retry_count, Hrc. reflexivity.
  - intros Hrc Hk. unfold dict_contains.
    rewrite (Hout _ Hk), known_part_retry_count, Hrc. reflexivity.
  - reflexivity.
  - destruct (data_round_trip (with_kpi_ids r (VList [])))
      as (r' & H & _ & _ & _ & Hids).
    exists r'. split; [exact H | exact Hids].
Qed.

Lemma to_dict_omits_falsy_witness :
  dict_contains "timestamp" (KPIErrorUpdate.to_dict zero_retries) = false
  /\ dict_contains "kpiIds" (KPIErrorUpdate.to_dict zero_retries) = false
  /\ dict_find "retryCount" (KPIErrorUpdate.to_dict zero_retries) = Some (VInt 0).
Proof.
  destruct (to_dict_omits_falsy sample_update zero_retries)
    as (_ & _ & _ & Hopt & _ & Hzero & _).
  split; [|split].
  - apply (Hopt "timestamp" (VStr "")); simpl; tauto.
  - apply (Hopt "kpiIds" (VList [])); simpl; tauto.
  - apply Hzero; [reflexivity | simpl; tauto].
Defined.

(** ** Further properties: the error record *)

(** X1: [get_error_code] returns the stringified first truthy of the
    ["code"], ["errorCode"], ["status"] entries of a mapping, in this order,
    and [None] when none is truthy or [error] is not a mapping; so its
    result is [None] or a string, never a raw number. *)
Theorem get_error_code_first_truthy (repr : value -> string)
    (self : KPIErrorUpdate.t) :
  KPIErrorUpdate.get_error_code repr self
  = match KPIErrorUpdate.error self with
    | VDict e =>
        match first_truthy
                [dict_get "code" e; dict_get "errorCode" e; dict_get "status" e]
        with
        | Some v => VStr (str repr v)
        | None => VNone
        end
    | _ => VNone
    end
  /\ (KPIErrorUpdate.get_error_code repr self = VNone
      \/ exists s, KPIErrorUpdate.get_error_code repr self = VStr s).
Proof.
  unfold KPIErrorUpdate.get_error_code.
  destruct (KPIErrorUpdate.error self) as [| | | | | |e]; try (split; auto).
  - unfold py_or. simpl.
    destruct (truthy (dict_get "code" e)) eqn:E1.
    + now rewrite E1.
    + destruct (truthy (dict_get "errorCode" e)); [reflexivity|].
      destruct (truthy (dict_get "status" e)); reflexivity.
  - cbv zeta.
    destruct (truthy (py_or (dict_get "code" e) (dict_get "errorCode" e)));
      [right; eauto|].
    destruct (truthy (dict_get "status" e)); [right; eauto | left; reflexivity].
Qed.

(** X2: [get_error_type] returns the first truthy of the ["name"], ["type"],
    ["errorType"] entries of a mapping; when none is truthy it returns the
    ["errorType"] entry as it is, so an empty string or a zero there comes
    back instead of [None]; for a non-mapping it returns [None]. *)
Theorem get_error_type_cases (self : KPIErrorUpdate.t) (e : dict) :
  KPIErrorUpdate.error self = VDict e ->
  (forall v,
      first_truthy [dict_get "name" e; dict_get "type" e; dict_get "errorType" e]
      = Some v ->
      KPIErrorUpdate.get_error_type self = v)
  /\ (first_truthy [dict_get "name" e; dict_get "type" e; dict_get "errorType" e]
      = None ->
      KPIErrorUpdate.get_error_type self = dict_get "errorType" e)
  /\ (forall other,
        is_dict (KPIErrorUpdate.error other) = false ->
        KPIErrorUpdate.get_error_type other = VNone).
Proof.
  intros He. unfold KPIErrorUpdate.get_error_type. rewrite He.
  unfold py_or. simpl. split; [|split].
  - intros v.
    destruct (truthy (dict_get "name" e)); [congruence|].
    destruct (truthy (dict_get "type" e)); [congruence|].
    destruct (truthy (dict_get "errorType" e)); congruence.
  - destruct (truthy (dict_get "name" e)); [discriminate|].
    destruct (truthy (dict_get "type" e)); [discriminate|]. reflexivity.
  - intros other. destruct (KPIErrorUpdate.error other); simpl;
      try reflexivity; discriminate.
Qed.

Lemma get_error_type_cases_witness :
  KPIErrorUpdate.get_error_type empty_error_type = VStr "".
Proof.
  apply (proj1 (proj2 (get_error_type_cases empty_error_type
                         [("message", VStr "boom"); ("errorType", VStr "")]
                         eq_refl))).
  reflexivity.
Defined.

Lemma dict_get_truthy_find (k : string) (d : dict) :
  truthy (dict_get k d) = true -> dict_find k d = Some (dict_get k d).
Proof.
  unfold dict_get, dict_get_default.
  destruct (dict_find k d); [reflexivity | discriminate].
Qed.

Lemma dict_get_error_default (d : dict) :
  truthy (dict_get_default "error" (VDict []) d) = truthy (dict_get "error" d)
  /\ (truthy (dict_get "error" d) = true ->
      dict_get_default "error" (VDict []) d = dict_get "error" d).
Proof.
  unfold dict_get, dict_get_default.
  destruct (dict_find "error" d); split; auto. discriminate.
Qed.

(** X3: [KPIErrorUpdate.from_dict] succeeds exactly when both ["traceId"]
    and ["error"] are present and truthy; a missing or falsy trace id is
    reported first, also when the error is missing too; on success every
    field is the mapping's entry under its key, [None] when absent. *)
Theorem error_from_dict_outcome (d : dict) :
  (truthy (dict_get "traceId" d) = false ->
   KPIErrorUpdate.from_dict d
   = Raise (ValueError "traceId is required in error response"))
  /\ (truthy (dict_get "traceId" d) = true ->
      truthy (dict_get "error" d) = false ->
      KPIErrorUpdate.from_dict d
      = Raise (ValueError "error field is required in error response"))
  /\ (truthy (dict_get "traceId" d) = true ->
      truthy (dict_get "error" d) = true ->
      exists extra,
        KPIErrorUpdate.from_dict d
        = Ok (KPIErrorUpdate.mk
                (dict_get "traceId" d) (dict_get "error" d)
                (dict_get "timestamp" d) (dict_get "kpiId" d)
                (dict_get "kpiIds" d) (dict_get "retryCount" d)
                (dict_get "component" d) (dict_get "workflowId" d)
                (dict_get "executionId" d) extra)).
Proof.
  unfold KPIErrorUpdate.from_dict.
  destruct (dict_get_error_default d) as [Ht Heq].
  split; [|split].
  - intros ->. reflexivity.
  - intros -> He. rewrite Ht, He. reflexivity.
  - intros -> He. rewrite Ht, He, (Heq He). cbn [negb]. eauto.
Qed.

Lemma error_from_dict_outcome_witness :
  KPIErrorUpdate.from_dict [("error", VStr ""); ("kpiId", VStr "k")]
  = Raise (ValueError "traceId is required in error response").
Proof.
  apply (proj1 (error_from_dict_outcome [("error", VStr ""); ("kpiId", VStr "k")])).
  reflexivity.
Defined.

Lemma error_from_dict_inv (d : dict) (e : KPIErrorUpdate.t) :
  KPIErrorUpdate.from_dict d = Ok e ->
  truthy (dict_get "traceId" d) = true
  /\ truthy (dict_get "error" d) = true
  /\ e = KPIErrorUpdate.mk
           (dict_get "traceId" d) (dict_get "error" d)
           (dict_get "timestamp" d) (dict_get "kpiId" d)
           (dict_get "kpiIds" d) (dict_get "retryCount" d)
           (dict_get "component" d) (dict_get "workflowId" d)
           (dict_get "executionId" d)
           (let extra :=
              filter (fun kv => negb (str_in (fst kv) KPIErrorUpdate.known_fields)) d in
            if truthy (VDict extra) then Some extra else None).
Proof.
  unfold KPIErrorUpdate.from_dict.
  destruct (dict_get_error_default d) as [Ht Heq].
  destruct (truthy (dict_get "traceId" d)); [|discriminate].
  rewrite Ht. destruct (truthy (dict_get "error" d)); [|discriminate].
  rewrite (Heq eq_refl). cbn [negb]. intros H. inversion H. auto.
Qed.

(** X4: every record [KPIErrorUpdate.from_dict] returns passes [validate],
    and its additional fields, when present, are non-empty and are exactly
    the entries of the mapping whose key is not a known key; they are absent
    exactly when every key of the mapping is known. *)
Theorem error_from_dict_invariants (d : dict) (e : KPIErrorUpdate.t) :
  KPIErrorUpdate.from_dict d = Ok e ->
  KPIErrorUpdate.validate e = true
  /\ (forall extra,
        KPIErrorUpdate.additional_fields e = Some extra ->
        extra <> []
        /\ (forall k v,
              In (k, v) extra
              <-> In (k, v) d /\ ~ In k KPIErrorUpdate.known_fields))
  /\ (KPIErrorUpdate.additional_fields e = None
      <-> forall k, In k (dict_keys d) -> In k KPIErrorUpdate.known_fields).
Proof.
  intros H. destruct (error_from_dict_inv d e H) as (Ht & He & ->).
  set (unknown := fun kv : string * value =>
                    negb (str_in (fst kv) KPIErrorUpdate.known_fields)).
  cbn [KPIErrorUpdate.additional_fields]. cbv zeta. fold unknown.
  assert (Hfilter : forall k v,
             In (k, v) (filter unknown d)
             <-> In (k, v) d /\ ~ In k KPIErrorUpdate.known_fields).
  { intros k v. rewrite filter_In. unfold unknown. cbn [fst].
    split; intros [Hin Hu]; split; auto.
    - intros Hk. apply str_in_true in Hk. rewrite Hk in Hu. discriminate.
    - destruct (str_in k KPIErrorUpdate.known_fields) eqn:E; auto.
      apply str_in_true in E. contradiction. }
  split; [|split].
  - unfold KPIErrorUpdate.validate. simpl. now rewrite Ht, He.
  - intros extra Hextra.
    destruct (filter unknown d) as [|kv rest] eqn:E; simpl in Hextra;
      [discriminate|].
    inversion Hextra; subst. split; [discriminate | exact Hfilter].
  - split.
    + intros Hnone k Hk.
      destruct (filter unknown d) as [|kv rest] eqn:E; simpl in Hnone;
        [|discriminate].
      destruct (in_dec string_dec k KPIErrorUpdate.known_fields) as [|Hout];
        auto.
      apply in_map_iff in Hk. destruct Hk as ([k' v] & <- & Hin).
      exfalso. apply (proj2 (Hfilter k' v)); auto.
    + intros Hall.
      destruct (filter unknown d) as [|[k v] rest] eqn:E; [reflexivity|].
      exfalso. destruct (proj1 (Hfilter k v)) as [Hin Hout];
        [try rewrite E; now left|].
      apply Hout, Hall. apply in_map_iff. exists (k, v). auto.
Qed.

Lemma error_from_dict_invariants_witness :
  exists e,
    KPIErrorUpdate.from_dict falsy_kpi_id_payload = Ok e
    /\ KPIErrorUpdate.validate e = true.
Proof.
  eexists. split; [reflexivity|].
  apply (proj1 (error_from_dict_invariants falsy_kpi_id_payload _ eq_refl)).
Defined.

Lemma dict_find_filter (p : string -> bool) (k : string) (d : dict) :
  dict_find k (filter (fun kv => p (fst kv)) d)
  = if p k then dict_find k d else None.
Proof.
  induction d as [|[k' v'] d IH]; simpl.
  - now destruct (p k).
  - destruct (p k') eqn:Ek'; simpl; destruct (String.eqb k k') eqn:E; auto.
    + apply String.eqb_eq in E. subst. now rewrite Ek'.
    + apply String.eqb_eq in E. subst. now rewrite IH, Ek'.
Qed.

Lemma dict_ok_filter (f : string * value -> bool) (d : dict) :
  dict_ok d -> dict_ok (filter f d).
Proof.
  unfold dict_ok, dict_keys. induction d as [|[k v] d IH]; simpl; auto.
  intros Hnd. inversion Hnd as [|? ? Hk Hnd']; subst.
  destruct (f (k, v)); simpl; auto. constructor; auto.
  intros Hin. apply Hk. apply in_map_iff in Hin.
  destruct Hin as ([k' v'] & Heq & Hin). simpl in Heq. subst.
  apply filter_In in Hin. apply in_map_iff. exists (k, v'). tauto.
Qed.

Lemma dict_get_find (k : string) (v : value) (d : dict) :
  dict_find k d = Some v -> dict_get k d = v.
Proof. unfold dict_get, dict_get_default. now intros ->. Qed.

Lemma dict_get_not_none_find (k : string) (d : dict) :
  dict_get k d <> VNone -> dict_find k d = Some (dict_get k d).
Proof.
  unfold dict_get, dict_get_default.
  destruct (dict_find k d); [reflexivity | congruence].
Qed.

Lemma truthy_not_none (v : value) : truthy v = true -> v <> VNone.
Proof. intros H ->. discriminate. Qed.

(** The serialized form of a parsed error record: the known part, then the
    unknown entries of the parsed mapping in their order. *)
Lemma to_dict_of_parsed (d : dict) (e : KPIErrorUpdate.t) :
  dict_ok d -> KPIErrorUpdate.from_dict d = Ok e ->
  KPIErrorUpdate.to_dict e
  = known_part e
    ++ filter (fun kv => negb (str_in (fst kv) KPIErrorUpdate.known_fields)) d.
Proof.
  intros Hok H. destruct (error_from_dict_inv d e H) as (_ & _ & ->).
  rewrite to_dict_known_part. cbn [KPIErrorUpdate.additional_fields]. cbv zeta.
  set (extra := filter _ d).
  assert (Hextra : dict_ok extra) by now apply dict_ok_filter.
  destruct extra as [|kv rest] eqn:E; cbn [truthy].
  - now rewrite app_nil_r.
  - apply dict_update_disjoint; auto.
    intros k Hk. rewrite <- E in Hk.
    match goal with |- dict_find k ?K = None => destruct (dict_find k K) eqn:Ef end;
      auto.
    exfalso.
    assert (Hknown : In k KPIErrorUpdate.known_fields).
    { eapply known_part_keys. rewrite Ef. discriminate. }
    apply in_map_iff in Hk. destruct Hk as ([k' v'] & Heq & Hin).
    simpl in Heq. subst k'. apply filter_In in Hin. destruct Hin as [_ Hu].
    cbn [fst] in Hu. apply str_in_true in Hknown. rewrite Hknown in Hu.
    discriminate.
Qed.

(** X5: serializing a parsed error record invents nothing and loses only
    falsy known fields: every entry of [to_dict (from_dict d)] is an entry
    of [d]; an entry of [d] is kept when its key is not a known key, or its
    value is truthy, or it is a ["retryCount"] other than [None]. *)
Theorem error_to_dict_of_from_dict (d : dict) (e : KPIErrorUpdate.t) :
  dict_ok d ->
  KPIErrorUpdate.from_dict d = Ok e ->
  (forall k v,
      dict_find k (KPIErrorUpdate.to_dict e) = Some v -> dict_find k d = Some v)
  /\ (forall k v,
        dict_find k d = Some v ->
        ~ In k KPIErrorUpdate.known_fields
        \/ truthy v = true
        \/ (k = "retryCount" /\ v <> VNone) ->
        dict_find k (KPIErrorUpdate.to_dict e) = Some v).
Proof.
  intros Hok H. rewrite (to_dict_of_parsed d e Hok H).
  destruct (error_from_dict_inv d e H) as (Ht & He & Heq).
  set (unknown := fun k => negb (str_in k KPIErrorUpdate.known_fields)).
  assert (Hx : forall k,
             dict_find k (filter (fun kv => negb (str_in (fst kv)
                                                    KPIErrorUpdate.known_fields)) d)
             = if unknown k then dict_find k d else None).
  { intros k. apply (dict_find_filter unknown). }
  assert (Hknown : forall k,
             In k KPIErrorUpdate.known_fields ->
             unknown k = false
             /\ dict_find k (known_part e)
                = if (String.eqb k "retryCount")
                  then (if is_none (dict_get k d) then None else Some (dict_get k d))
                  else (if truthy (dict_get k d) then Some (dict_get k d) else None)).
  { intros k Hk. split.
    - unfold unknown. apply str_in_true in Hk. now rewrite Hk.
    - subst e. simpl in Hk.
      destruct Hk as [<- | [<- | [<- | [<- | [<- | [<- | [<- | [<- | [<- | []]]]]]]]]];
        cbn [String.eqb Ascii.eqb Bool.eqb].
      + now rewrite known_part_trace_id, Ht.
      + now rewrite known_part_error, He.
      + now rewrite (known_part_optional _ "timestamp" (dict_get "timestamp" d))
          by (simpl; tauto).
      + now rewrite (known_part_optional _ "kpiId" (dict_get "kpiId" d))
          by (simpl; tauto).
      + now rewrite (known_part_optional _ "kpiIds" (dict_get "kpiIds" d))
          by (simpl; tauto).
      + now rewrite known_part_retry_count.
      + now rewrite (known_part_optional _ "component" (dict_get "component" d))
          by (simpl; tauto).
      + now rewrite (known_part_optional _ "workflowId" (dict_get "workflowId" d))
          by (simpl; tauto).
      + now rewrite (known_part_optional _ "executionId" (dict_get "executionId" d))
          by (simpl; tauto). }
  assert (Hunknown : forall k,
             ~ In k KPIErrorUpdate.known_fields ->
             unknown k = true /\ dict_find k (known_part e) = None).
  { intros k Hk. split.
    - unfold unknown. destruct (str_in k KPIErrorUpdate.known_fields) eqn:E; auto.
      apply str_in_true in E. contradiction.
    - destruct (dict_find k (known_part e)) eqn:E; auto.
      exfalso. apply Hk. eapply known_part_keys. rewrite E. discriminate. }
  split; intros k v; rewrite dict_find_app, Hx;
    destruct (in_dec string_dec k KPIErrorUpdate.known_fields) as [Hin | Hout].
  - destruct (Hknown k Hin) as [-> ->].
    destruct (String.eqb k "retryCount").
    + destruct (is_none (dict_get k d)) eqn:En; [discriminate|].
      intros Hv. inversion Hv; subst. apply dict_get_not_none_find.
      intros Hn. rewrite Hn in En. discriminate.
    + destruct (truthy (dict_get k d)) eqn:Etr; [|discriminate].
      intros Hv. inversion Hv; subst. now apply dict_get_truthy_find.
  - destruct (Hunknown k Hout) as [-> ->]. auto.
  - destruct (Hknown k Hin) as [-> ->]. intros Hf Hkeep.
    rewrite (dict_get_find k v d Hf).
    destruct (String.eqb k "retryCount") eqn:Ek.
    + apply String.eqb_eq in Ek. subst k.
      destruct v; try reflexivity.
      destruct Hkeep as [Hc | [Hc | [_ Hc]]];
        [contradiction | discriminate | congruence].
    + destruct (truthy v) eqn:Etr; [reflexivity|].
      destruct Hkeep as [Hc | [Hc | [Hc _]]];
        [contradiction | discriminate | subst k; discriminate].
  - destruct (Hunknown k Hout) as [-> ->]. auto.
Qed.

Lemma falsy_kpi_id_payload_ok : dict_ok falsy_kpi_id_payload.
Proof.
  unfold dict_ok, falsy_kpi_id_payload. simpl.
  repeat (constructor; [simpl; intuition discriminate|]). constructor.
Defined.

Lemma error_to_dict_of_from_dict_witness :
  exists e,
    KPIErrorUpdate.from_dict falsy_kpi_id_payload = Ok e
    /\ dict_find "retryCount" (KPIErrorUpdate.to_dict e) = Some (VInt 0)
    /\ dict_find "customField" (KPIErrorUpdate.to_dict e)
       = Some (VStr "custom_value").
Proof.
  eexists. split; [reflexivity|].
  destruct (error_to_dict_of_from_dict falsy_kpi_id_payload _
              falsy_kpi_id_payload_ok eq_refl) as [_ Hkeep].
  split.
  - apply Hkeep; [reflexivity|]. right. right. split; [reflexivity | discriminate].
  - apply Hkeep; [reflexivity|]. left. simpl. intuition discriminate.
Defined.

(** ** Further properties: the success record and the responses *)

(** X6: parsing back a serialized success record gives the record itself
    with a falsy [kpi_ids] or [metadata] replaced by [None] and the chart
    unchanged; the result serializes as the original did; so the round trip
    is the identity on a record whose [kpi_ids] and [metadata] are [None] or
    truthy. *)
Theorem data_round_trip_exact (r : KPIDataUpdate.t) :
  let r' := KPIDataUpdate.mk
              (KPIDataUpdate.trace_id r) (KPIDataUpdate.kpi_id r)
              (KPIDataUpdate.timestamp r) (KPIDataUpdate.kpi_type r)
              (KPIDataUpdate.data r) (or_none (KPIDataUpdate.kpi_ids r))
              (KPIDataUpdate.chart r) (or_none (KPIDataUpdate.metadata r)) in
  KPIDataUpdate.from_dict (KPIDataUpdate.to_dict r) = Ok r'
  /\ KPIDataUpdate.to_dict r' = KPIDataUpdate.to_dict r
  /\ (KPIDataUpdate.kpi_ids r = VNone \/ truthy (KPIDataUpdate.kpi_ids r) = true ->
      KPIDataUpdate.metadata r = VNone \/ truthy (KPIDataUpdate.metadata r) = true ->
      KPIDataUpdate.from_dict (KPIDataUpdate.to_dict r) = Ok r).
Proof.
  destruct r as [tr id ts ty da ids ch md].
  cbn [KPIDataUpdate.kpi_ids KPIDataUpdate.chart KPIDataUpdate.metadata
       KPIDataUpdate.trace_id KPIDataUpdate.kpi_id KPIDataUpdate.timestamp
       KPIDataUpdate.kpi_type KPIDataUpdate.data].
  assert (H : KPIDataUpdate.from_dict
                (KPIDataUpdate.to_dict (KPIDataUpdate.mk tr id ts ty da ids ch md))
              = Ok (KPIDataUpdate.mk tr id ts ty da (or_none ids) ch (or_none md))).
  { unfold KPIDataUpdate.to_dict, or_none.
    cbn [KPIDataUpdate.kpi_ids KPIDataUpdate.chart KPIDataUpdate.metadata
         KPIDataUpdate.trace_id KPIDataUpdate.kpi_id KPIDataUpdate.timestamp
         KPIDataUpdate.kpi_type KPIDataUpdate.data].
    destruct ch as [[u t g]|]; destruct (truthy ids), (truthy md); reflexivity. }
  split; [exact H|]. split.
  - unfold KPIDataUpdate.to_dict, or_none.
    cbn [KPIDataUpdate.kpi_ids KPIDataUpdate.chart KPIDataUpdate.metadata
         KPIDataUpdate.trace_id KPIDataUpdate.kpi_id KPIDataUpdate.timestamp
         KPIDataUpdate.kpi_type KPIDataUpdate.data].
    destruct (truthy ids) eqn:E1, (truthy md) eqn:E2;
      rewrite ?E1, ?E2; reflexivity.
  - intros Hids Hmd. rewrite H. unfold or_none.
    destruct Hids as [-> | ->], Hmd as [-> | ->]; reflexivity.
Qed.

Lemma data_round_trip_exact_witness :
  KPIDataUpdate.from_dict (KPIDataUpdate.to_dict sample_update) = Ok sample_update.
Proof.
  apply (proj2 (proj2 (data_round_trip_exact sample_update))).
  - left. reflexivity.
  - right. reflexivity.
Defined.

(** X7: the chart block of [KPIDataUpdate.from_dict] and
    [parse_individual_kpi_response]: an absent or falsy ["chart"] gives no
    chart and no error; a non-empty mapping without ["url"] raises the
    key-lookup error for ["url"]; a mapping with ["url"] gives a chart whose
    type and time range are the entries when present (a null included) and
    ["unknown"] when absent; a truthy non-mapping raises a type error. *)
Theorem parse_chart_cases (d : dict) :
  (dict_find "chart" d = None -> parse_chart d = Ok None)
  /\ (forall v, dict_find "chart" d = Some v -> truthy v = false ->
                parse_chart d = Ok None)
  /\ (forall c, dict_find "chart" d = Some (VDict c) -> c <> [] ->
                dict_find "url" c = None ->
                parse_chart d = Raise (KeyError "url"))
  /\ (forall c u, dict_find "chart" d = Some (VDict c) ->
                  dict_find "url" c = Some u ->
                  parse_chart d
                  = Ok (Some (ChartInfo.mk u
                                (dict_get_default "type" (VStr "unknown") c)
                                (dict_get_default "timeRange" (VStr "unknown") c))))
  /\ (forall v, dict_find "chart" d = Some v -> truthy v = true ->
                is_dict v = false ->
                parse_chart d = Raise TypeError).
Proof.
  unfold parse_chart, dict_contains, dict_getitem.
  split; [|split; [|split; [|split]]].
  - intros ->. reflexivity.
  - intros v -> Hv. simpl. now rewrite Hv.
  - intros c -> Hc Hu. destruct c; [contradiction|]. simpl.
    unfold dict_getitem. now rewrite Hu.
  - intros c u -> Hu. destruct c; [discriminate|]. simpl.
    unfold dict_getitem. now rewrite Hu.
  - intros v -> Hv Hd. simpl. rewrite Hv. simpl.
    destruct v; try reflexivity; discriminate.
Qed.

Lemma parse_chart_cases_witness :
  parse_chart chart_without_type
  = Ok (Some (ChartInfo.mk (VStr "https://example.com/chart.png")
                (VStr "unknown") (VStr "unknown"))).
Proof.
  apply (proj1 (proj2 (proj2 (proj2 (parse_chart_cases chart_without_type))))
           [("url", VStr "https://example.com/chart.png")]);
    reflexivity.
Defined.

Lemma dict_getitem_absent (k : string) (d : dict) :
  dict_contains k d = false -> dict_getitem k d = Raise (KeyError k).
Proof.
  unfold dict_contains, dict_getitem.
  destruct (dict_find k d); [discriminate | reflexivity].
Qed.

(** X8: [parse_individual_kpi_response] and [KPIDataUpdate.from_dict] read
    the same mapping the same way when the five required keys are present:
    converting the individual response with [to_kpi_data_update] gives the
    record [from_dict] builds, except that [kpi_ids] is dropped.  They
    differ on a missing key: the individual parser runs the chart block
    first and then fails with the raw key-lookup error of the first absent
    key, where [from_dict] names the field in a [ValueError]. *)
Theorem parse_individual_agrees_with_from_dict (d : dict) :
  ((forall g, In g KPIDataUpdate.required_fields -> dict_contains g d = true) ->
   (r <- parse_individual_kpi_response d ;;
    Ok (IndividualKPIResponse.to_kpi_data_update r))
   = (u <- KPIDataUpdate.from_dict d ;; Ok (with_kpi_ids u VNone)))
  /\ (forall x, parse_chart d = Raise x ->
                parse_individual_kpi_response d = Raise x)
  /\ (forall c pre f post,
        parse_chart d = Ok c ->
        KPIDataUpdate.required_fields = pre ++ f :: post ->
        (forall g, In g pre -> dict_contains g d = true) ->
        dict_contains f d = false ->
        parse_individual_kpi_response d = Raise (KeyError f)
        /\ KPIDataUpdate.from_dict d
           = Raise (ValueError (KPIDataUpdate.missing_message f))).
Proof.
  split; [|split].
  - intros Hall. unfold parse_individual_kpi_response, KPIDataUpdate.from_dict.
    rewrite (check_required_present d _ Hall). simpl.
    destruct (parse_chart d) as [c|x]; simpl; [|reflexivity].
    destruct (dict_getitem "traceId" d); simpl; [|reflexivity].
    destruct (dict_getitem "kpiId" d); simpl; [|reflexivity].
    destruct (dict_getitem "timestamp" d); simpl; [|reflexivity].
    destruct (dict_getitem "kpiType" d); simpl; [|reflexivity].
    destruct (dict_getitem "data" d); simpl; reflexivity.
  - intros x Hx. unfold parse_individual_kpi_response. now rewrite Hx.
  - intros c pre f post Hc Heq Hpre Hf. split.
    + unfold parse_individual_kpi_response. rewrite Hc. simpl.
      unfold KPIDataUpdate.required_fields in Heq.
      repeat (destruct pre as [|? pre];
              [ inversion Heq; subst;
                rewrite (dict_getitem_absent _ _ Hf); reflexivity
              | inversion Heq; subst; clear Heq;
                match goal with
                | H : ?l = pre ++ f :: post |- _ => rename H into Heq
                end;
                match goal with
                | |- context [dict_getitem ?g d] =>
                    destruct (dict_getitem_contains g d) as (? & -> & _);
                    [apply Hpre; simpl; tauto|]; simpl
                end ]).
    + unfold KPIDataUpdate.from_dict.
      rewrite Heq, (check_required_first_missing d pre post f Hpre Hf).
      reflexivity.
Qed.

Lemma parse_individual_agrees_with_from_dict_witness :
  parse_individual_kpi_response lacks_data = Raise (KeyError "data")
  /\ KPIDataUpdate.from_dict lacks_data
     = Raise (ValueError "Required field 'data' missing from KPI data").
Proof.
  apply (proj2 (proj2 (parse_individual_agrees_with_from_dict lacks_data))
           None ["traceId"; "kpiId"; "timestamp"; "kpiType"] "data" []).
  - reflexivity.
  - reflexivity.
  - intros g [<- | [<- | [<- | [<- | []]]]]; reflexivity.
  - reflexivity.
Defined.

(** X9: parsing back a serialized individual response gives the response
    itself with a falsy [metadata] replaced by [None]. *)
Theorem individual_round_trip (r : IndividualKPIResponse.t) :
  parse_individual_kpi_response (IndividualKPIResponse.to_dict r)
  = Ok (IndividualKPIResponse.mk
          (IndividualKPIResponse.trace_id r) (IndividualKPIResponse.kpi_id r)
          (IndividualKPIResponse.timestamp r) (IndividualKPIResponse.kpi_type r)
          (IndividualKPIResponse.data r) (IndividualKPIResponse.chart r)
          (or_none (IndividualKPIResponse.metadata r)))
  /\ (IndividualKPIResponse.metadata r = VNone
      \/ truthy (IndividualKPIResponse.metadata r) = true ->
      parse_individual_kpi_response (IndividualKPIResponse.to_dict r) = Ok r).
Proof.
  destruct r as [tr id ts ty da ch md].
  unfold IndividualKPIResponse.to_dict, or_none.
  cbn [IndividualKPIResponse.chart IndividualKPIResponse.metadata
       IndividualKPIResponse.trace_id IndividualKPIResponse.kpi_id
       IndividualKPIResponse.timestamp IndividualKPIResponse.kpi_type
       IndividualKPIResponse.data].
  split.
  - destruct ch as [[u t g]|]; destruct (truthy md); reflexivity.
  - intros [-> | Hmd]; [destruct ch as [[u t g]|]; reflexivity|].
    rewrite Hmd. destruct ch as [[u t g]|]; reflexivity.
Qed.

Lemma individual_round_trip_witness :
  parse_individual_kpi_response (IndividualKPIResponse.to_dict sample_individual)
  = Ok sample_individual.
Proof.
  apply (proj2 (individual_round_trip sample_individual)). right. reflexivity.
Defined.

(** X10: parsing back a serialized aggregate response whose [kpi_type] is
    its class's literal gives a response of the same class with the same
    trace id, timestamp and aggregate data (each numeric field as it was),
    and with a falsy [kpi_ids] or [metadata] replaced by [None]. *)
Theorem multi_round_trip (repr : value -> string)
    (r : CBBIMultiKPIResponse.t) (r' : CMCMultiKPIResponse.t) :
  CBBIMultiKPIResponse.kpi_type r = VStr "cbbi-multi" ->
  CMCMultiKPIResponse.kpi_type r' = VStr "cmc-multi" ->
  parse_multi_kpi_response repr (CBBIMultiKPIResponse.to_dict r)
  = Ok (CBBIMulti
          (CBBIMultiKPIResponse.mk
             (CBBIMultiKPIResponse.trace_id r) (CBBIMultiKPIResponse.timestamp r)
             (VStr "cbbi-multi") (or_none (CBBIMultiKPIResponse.kpi_ids r))
             (CBBIMultiKPIResponse.data r)
             (or_none (CBBIMultiKPIResponse.metadata r))))
  /\ parse_multi_kpi_response repr (CMCMultiKPIResponse.to_dict r')
     = Ok (CMCMulti
             (CMCMultiKPIResponse.mk
                (CMCMultiKPIResponse.trace_id r') (CMCMultiKPIResponse.timestamp r')
                (VStr "cmc-multi") (or_none (CMCMultiKPIResponse.kpi_ids r'))
                (CMCMultiKPIResponse.data r')
                (or_none (CMCMultiKPIResponse.metadata r')))).
Proof.
  destruct r as [tr ts kt ids da md]. destruct r' as [tr' ts' kt' ids' da' md'].
  simpl. intros -> ->. unfold or_none. split.
  - unfold CBBIMultiKPIResponse.to_dict.
    cbn [CBBIMultiKPIResponse.kpi_ids CBBIMultiKPIResponse.data
         CBBIMultiKPIResponse.metadata CBBIMultiKPIResponse.trace_id
         CBBIMultiKPIResponse.timestamp CBBIMultiKPIResponse.kpi_type].
    destruct da as [[a b c d]|]; destruct (truthy ids), (truthy md); reflexivity.
  - unfold CMCMultiKPIResponse.to_dict.
    cbn [CMCMultiKPIResponse.kpi_ids CMCMultiKPIResponse.data
         CMCMultiKPIResponse.metadata CMCMultiKPIResponse.trace_id
         CMCMultiKPIResponse.timestamp CMCMultiKPIResponse.kpi_type].
    destruct da' as [[a b c d]|]; destruct (truthy ids'), (truthy md');
      reflexivity.
Qed.

Lemma multi_round_trip_witness :
  CBBIMultiKPIResponse.kpi_type sample_cbbi = VStr "cbbi-multi"
  /\ (forall repr,
        parse_multi_kpi_response repr (CBBIMultiKPIResponse.to_dict sample_cbbi)
        = Ok (CBBIMulti sample_cbbi)
        /\ parse_multi_kpi_response repr (CMCMultiKPIResponse.to_dict sample_cmc)
           = Ok (CMCMulti sample_cmc)).
Proof.
  split; [reflexivity|]. intros repr.
  exact (multi_round_trip repr sample_cbbi sample_cmc eq_refl eq_refl).
Defined.

(** ** Further properties: the normalizer on any input *)

Section NormalizerInvariant.

Variables trace_id timestamp kpi_type kpi_ids metadata : value.
Variable mapping : dict.

(** A record the loop may emit: the record of a key of [mapping] whose
    value is not [None]. *)
Let emittable (u : KPIDataUpdate.t) : Prop :=
  exists key v,
    dict_find key mapping = Some v /\ is_none v = false
    /\ u = emitted trace_id timestamp kpi_type kpi_ids metadata key v.

Lemma collect_updates_emittable (ids : list value)
    (updates out : list KPIDataUpdate.t) :
  collect_updates trace_id timestamp kpi_type kpi_ids metadata mapping ids updates
  = Ok out ->
  Forall emittable updates ->
  Forall emittable out /\ length out <= length updates + length ids.
Proof.
  revert updates. induction ids as [|id ids IH]; intros updates; simpl.
  - intros H Hacc. inversion H; subst. split; [assumption | lia].
  - destruct id as [| b | z | f | s | l | m]; simpl;
      try discriminate;
      try (intros H Hacc; destruct (IH _ H Hacc); split; [assumption | lia]).
    unfold dict_get, dict_get_default.
    destruct (dict_find s mapping) as [v|] eqn:E; simpl;
      [destruct (is_none v) eqn:En; simpl|];
      intros H Hacc.
    + destruct (IH _ H Hacc). split; [assumption | lia].
    + destruct (IH _ H) as [Hout Hlen].
      * apply Forall_app. split; [assumption|]. constructor; [|constructor].
        exists s, v. auto.
      * split; [assumption|]. rewrite length_app in Hlen. simpl in Hlen. lia.
    + destruct (IH _ H Hacc). split; [assumption | lia].
Qed.



End NormalizerInvariant.





Lemma validate_emitted (trace_id timestamp kpi_type kpi_ids metadata v : value)
    (key : string) :
  key <> "" ->
  KPIDataUpdate.validate
    (emitted trace_id timestamp kpi_type kpi_ids metadata key v)
  = truthy trace_id && truthy timestamp && truthy kpi_type.
Proof.
  intros Hkey. unfold KPIDataUpdate.validate, emitted. simpl.
  apply String.eqb_neq in Hkey. rewrite Hkey. simpl.
  destruct (truthy trace_id), (truthy timestamp), (truthy kpi_type); reflexivity.
Qed.

(** X12: whatever [kpi_ids] holds, when [to_kpi_data_updates] of a CBBI or
    CMC response returns, every record in the result is the record of one
    of the aggregate's four keys whose field is not [None], with that field
    as its value and the response's shared fields; no id outside the four
    keys is ever emitted; and each record passes [KPIDataUpdate.validate]
    exactly when the response's trace id, timestamp and type are truthy. *)
Theorem to_kpi_data_updates_sound
    (r : CBBIMultiKPIResponse.t) (r' : CMCMultiKPIResponse.t)
    (out : list KPIDataUpdate.t) :
  (CBBIMultiKPIResponse.to_kpi_data_updates r = Ok out ->
   forall u, In u out ->
     exists d key v,
       CBBIMultiKPIResponse.data r = Some d
       /\ In (key, v) (CBBIData.to_dict d) /\ v <> VNone
       /\ u = KPIDataUpdate.mk (CBBIMultiKPIResponse.trace_id r) (VStr key)
                (CBBIMultiKPIResponse.timestamp r)
                (CBBIMultiKPIResponse.kpi_type r)
                (VDict [("value", v)]) (CBBIMultiKPIResponse.kpi_ids r) None
                (CBBIMultiKPIResponse.metadata r)
       /\ KPIDataUpdate.validate u
          = truthy (CBBIMultiKPIResponse.trace_id r)
            && truthy (CBBIMultiKPIResponse.timestamp r)
            && truthy (CBBIMultiKPIResponse.kpi_type r))
  /\ (CMCMultiKPIResponse.to_kpi_data_updates r' = Ok out ->
      forall u, In u out ->
        exists d key v,
          CMCMultiKPIResponse.data r' = Some d
          /\ In (key, v) (CMCData.to_dict d) /\ v <> VNone
          /\ u = KPIDataUpdate.mk (CMCMultiKPIResponse.trace_id r') (VStr key)
                   (CMCMultiKPIResponse.timestamp r')
                   (CMCMultiKPIResponse.kpi_type r')
                   (VDict [("value", v)]) (CMCMultiKPIResponse.kpi_ids r') None
                   (CMCMultiKPIResponse.metadata r')
          /\ KPIDataUpdate.validate u
             = truthy (CMCMultiKPIResponse.trace_id r')
               && truthy (CMCMultiKPIResponse.timestamp r')
               && truthy (CMCMultiKPIResponse.kpi_type r')).
Proof.
  assert (Hfound : forall key v (m : dict),
             dict_find key m = Some v -> In (key, v) m).
  { intros key v m. induction m as [|[k' v'] m IH]; simpl; [discriminate|].
    destruct (String.eqb key k') eqn:E; auto.
    apply String.eqb_eq in E. subst. intros H. inversion H. now left. }
  assert (Hnone : forall v, is_none v = false -> v <> VNone).
  { intros v Hv ->. discriminate. }
  split.
  - unfold CBBIMultiKPIResponse.to_kpi_data_updates.
    destruct (CBBIMultiKPIResponse.data r) as [d|];
      [|intros H; inversion H; subst; intros u []].
    destruct (negb (truthy (CBBIMultiKPIResponse.kpi_ids r)));
      [intros H; inversion H; subst; intros u []|].
    cbv zeta.
    destruct (iterate (CBBIMultiKPIResponse.kpi_ids r)) as [ids|]; simpl;
      [|discriminate].
    intros H u Hu.
    destruct (collect_updates_emittable _ _ _ _ _ _ _ _ _ H (Forall_nil _))
      as [Hall _].
    rewrite Forall_forall in Hall.
    destruct (Hall u Hu) as (key & v & Hf & Hn & ->).
    apply Hfound in Hf.
    exists d, key, v. split; [reflexivity|]. split; [exact Hf|].
    split; [auto|]. split; [reflexivity|].
    apply validate_emitted. simpl in Hf.
    destruct Hf as [Hf | [Hf | [Hf | [Hf | []]]]]; inversion Hf; discriminate.
  - unfold CMCMultiKPIResponse.to_kpi_data_updates.
    destruct (CMCMultiKPIResponse.data r') as [d|];
      [|intros H; inversion H; subst; intros u []].
    destruct (negb (truthy (CMCMultiKPIResponse.kpi_ids r')));
      [intros H; inversion H; subst; intros u []|].
    cbv zeta.
    destruct (iterate (CMCMultiKPIResponse.kpi_ids r')) as [ids|]; simpl;
      [|discriminate].
    intros H u Hu.
    destruct (collect_updates_emittable _ _ _ _ _ _ _ _ _ H (Forall_nil _))
      as [Hall _].
    rewrite Forall_forall in Hall.
    destruct (Hall u Hu) as (key & v & Hf & Hn & ->).
    apply Hfound in Hf.
    exists d, key, v. split; [reflexivity|]. split; [exact Hf|].
    split; [auto|]. split; [reflexivity|].
    apply validate_emitted. simpl in Hf.
    destruct Hf as [Hf | [Hf | [Hf | [Hf | []]]]]; inversion Hf; discriminate.
Qed.

Lemma to_kpi_data_updates_sound_witness :
  exists out,
    CBBIMultiKPIResponse.to_kpi_data_updates sample_cbbi = Ok out
    /\ forall u, In u out -> KPIDataUpdate.validate u = true.
Proof.
  eexists. split; [reflexivity|]. intros u Hu.
  destruct (proj1 (to_kpi_data_updates_sound sample_cbbi sample_cmc _) eq_refl u Hu)
    as (d & key & v & _ & _ & _ & _ & Hval).
  rewrite Hval. reflexivity.
Defined.

(** ** Further properties: parsing then normalizing, and the validator *)

Section ParseInversion.

Variable repr : value -> string.

(** What a successful parse of a CBBI response says about the mapping. *)
Lemma parse_multi_cbbi_inv (d : dict) (r : CBBIMultiKPIResponse.t) :
  parse_multi_kpi_response repr d = Ok (CBBIMulti r) ->
  dict_get "kpiType" d = VStr "cbbi-multi"
  /\ dict_find "traceId" d = Some (CBBIMultiKPIResponse.trace_id r)
  /\ dict_find "timestamp" d = Some (CBBIMultiKPIResponse.timestamp r)
  /\ CBBIMultiKPIResponse.kpi_type r = VStr "cbbi-multi"
  /\ CBBIMultiKPIResponse.kpi_ids r = dict_get "kpiIds" d
  /\ CBBIMultiKPIResponse.metadata r = dict_get "metadata" d
  /\ (forall c,
        CBBIMultiKPIResponse.data r = Some c ->
        exists raw,
          dict_find "data" d = Some (VDict raw) /\ raw <> []
          /\ c = CBBIData.mk
                   (dict_get_default "cbbi-btc-price-usd" (VFloat 0) raw)
                   (dict_get_default "cbbi-rhodl" (VFloat 0) raw)
                   (dict_get_default "cbbi-mvrv" (VFloat 0) raw)
                   (dict_get_default "cbbi-confidence" (VFloat 0) raw)).
Proof.
  unfold parse_multi_kpi_response, has_data, dict_contains, dict_getitem.
  destruct (eq_str (dict_get "kpiType" d) "cbbi-multi") eqn:Et.
  - apply eq_str_true in Et. rewrite Et.
    destruct (dict_find "data" d) as [v|]; simpl.
    + destruct (truthy v) eqn:Ev; simpl.
      * destruct v as [| | | | | |raw]; simpl; try discriminate.
        destruct (dict_find "traceId" d); simpl; [|discriminate].
        destruct (dict_find "timestamp" d); simpl; [|discriminate].
        intros H. inversion H; subst; clear H. simpl.
        repeat (split; [reflexivity|]).
        intros c Hc. inversion Hc; subst. exists raw.
        split; [reflexivity|]. split; [|reflexivity].
        intros ->. discriminate.
      * destruct (dict_find "traceId" d); simpl; [|discriminate].
        destruct (dict_find "timestamp" d); simpl; [|discriminate].
        intros H. inversion H; subst; clear H. simpl.
        repeat (split; [reflexivity|]). intros c Hc. discriminate.
    + destruct (dict_find "traceId" d); simpl; [|discriminate].
      destruct (dict_find "timestamp" d); simpl; [|discriminate].
      intros H. inversion H; subst; clear H. simpl.
      repeat (split; [reflexivity|]). intros c Hc. discriminate.
  - destruct (eq_str (dict_get "kpiType" d) "cmc-multi"); [|discriminate].
    destruct (dict_find "data" d) as [v|]; simpl.
    + destruct (truthy v); simpl.
      * destruct v as [| | | | | |raw]; simpl; try discriminate.
        destruct (dict_find "traceId" d); simpl; [|discriminate].
        destruct (dict_find "timestamp" d); simpl; discriminate.
      * destruct (dict_find "traceId" d); simpl; [|discriminate].
        destruct (dict_find "timestamp" d); simpl; discriminate.
    + destruct (dict_find "traceId" d); simpl; [|discriminate].
      destruct (dict_find "timestamp" d); simpl; discriminate.
Qed.

Lemma parse_multi_cmc_inv (d : dict) (r : CMCMultiKPIResponse.t) :
  parse_multi_kpi_response repr d = Ok (CMCMulti r) ->
  dict_get "kpiType" d = VStr "cmc-multi"
  /\ dict_find "traceId" d = Some (CMCMultiKPIResponse.trace_id r)
  /\ dict_find "timestamp" d = Some (CMCMultiKPIResponse.timestamp r)
  /\ CMCMultiKPIResponse.kpi_type r = VStr "cmc-multi"
  /\ CMCMultiKPIResponse.kpi_ids r = dict_get "kpiIds" d
  /\ CMCMultiKPIResponse.metadata r = dict_get "metadata" d
  /\ (forall c,
        CMCMultiKPIResponse.data r = Some c ->
        exists raw,
          dict_find "data" d = Some (VDict raw) /\ raw <> []
          /\ c = CMCData.mk
                   (dict_get_default "cmc-btc-dominance" (VFloat 0) raw)
                   (dict_get_default "cmc-eth-dominance" (VFloat 0) raw)
                   (dict_get_default "cmc-totalmarketcap-usd" (VFloat 0) raw)
                   (dict_get_default "cmc-stablecoinmarketcap-usd" (VFloat 0) raw)).
Proof.
  unfold parse_multi_kpi_response, has_data, dict_contains, dict_getitem.
  destruct (eq_str (dict_get "kpiType" d) "cbbi-multi") eqn:Et.
  - destruct (dict_find "data" d) as [v|]; simpl.
    + destruct (truthy v); simpl.
      * destruct v as [| | | | | |raw]; simpl; try discriminate.
        destruct (dict_find "traceId" d); simpl; [|discriminate].
        destruct (dict_find "timestamp" d); simpl; discriminate.
      * destruct (dict_find "traceId" d); simpl; [|discriminate].
        destruct (dict_find "timestamp" d); simpl; discriminate.
    + destruct (dict_find "traceId" d); simpl; [|discriminate].
      destruct (dict_find "timestamp" d); simpl; discriminate.
  - destruct (eq_str (dict_get "kpiType" d) "cmc-multi") eqn:Ec; [|discriminate].
    apply eq_str_true in Ec. rewrite Ec.
    destruct (dict_find "data" d) as [v|]; simpl.
    + destruct (truthy v) eqn:Ev; simpl.
      * destruct v as [| | | | | |raw]; simpl; try discriminate.
        destruct (dict_find "traceId" d); simpl; [|discriminate].
        destruct (dict_find "timestamp" d); simpl; [|discriminate].
        intros H. inversion H; subst; clear H. simpl.
        repeat (split; [reflexivity|]).
        intros c Hc. inversion Hc; subst. exists raw.
        split; [reflexivity|]. split; [|reflexivity].
        intros ->. discriminate.
      * destruct (dict_find "traceId" d); simpl; [|discriminate].
        destruct (dict_find "timestamp" d); simpl; [|discriminate].
        intros H. inversion H; subst; clear H. simpl.
        repeat (split; [reflexivity|]). intros c Hc. discriminate.
    + destruct (dict_find "traceId" d); simpl; [|discriminate].
      destruct (dict_find "timestamp" d); simpl; [|discriminate].
      intros H. inversion H; subst; clear H. simpl.
      repeat (split; [reflexivity|]). intros c Hc. discriminate.
Qed.

End ParseInversion.

(** X13: the default of the parser reaches the ingestion records: when a
    CBBI or CMC payload lists in ["kpiIds"] one of its class's four keys
    that its non-empty ["data"] mapping lacks, parsing and then
    normalizing emits for that id a record whose value is [0.0]. *)
Theorem missing_sub_field_emits_zero (repr : value -> string) (d raw : dict)
    (trace_id timestamp : value) (ids : list string) (key : string) :
  dict_find "data" d = Some (VDict raw) -> raw <> [] ->
  dict_find "traceId" d = Some trace_id ->
  dict_find "timestamp" d = Some timestamp ->
  dict_find "kpiIds" d = Some (VList (map VStr ids)) ->
  In key ids -> dict_find key raw = None ->
  (dict_get "kpiType" d = VStr "cbbi-multi" ->
   In key ["cbbi-btc-price-usd"; "cbbi-rhodl"; "cbbi-mvrv"; "cbbi-confidence"] ->
   exists r out,
     parse_multi_kpi_response repr d = Ok (CBBIMulti r)
     /\ CBBIMultiKPIResponse.to_kpi_data_updates r = Ok out
     /\ In (KPIDataUpdate.mk trace_id (VStr key) timestamp (VStr "cbbi-multi")
              (VDict [("value", VFloat 0)]) (VList (map VStr ids)) None
              (dict_get "metadata" d))
          out)
  /\ (dict_get "kpiType" d = VStr "cmc-multi" ->
      In key ["cmc-btc-dominance"; "cmc-eth-dominance"; "cmc-totalmarketcap-usd";
              "cmc-stablecoinmarketcap-usd"] ->
      exists r out,
        parse_multi_kpi_response repr d = Ok (CMCMulti r)
        /\ CMCMultiKPIResponse.to_kpi_data_updates r = Ok out
        /\ In (KPIDataUpdate.mk trace_id (VStr key) timestamp (VStr "cmc-multi")
                 (VDict [("value", VFloat 0)]) (VList (map VStr ids)) None
                 (dict_get "metadata" d))
             out).
Proof.
  intros Hd Hne Htr Hts Hids Hin Hraw.
  assert (Hk : dict_get "kpiIds" d = VList (map VStr ids))
    by now apply dict_get_find.
  assert (Hz : dict_get_default key (VFloat 0) raw = VFloat 0).
  { unfold dict_get_default. now rewrite Hraw. }
  assert (Htruthy : negb (truthy (VList (map VStr ids))) = false).
  { destruct ids; [contradiction | reflexivity]. }
  split; intros Ht Hkey.
  - eexists. eexists. split; [|split].
    + exact (parse_multi_cbbi_ok repr d raw trace_id timestamp Ht Hd Hne Htr Hts).
    + unfold CBBIMultiKPIResponse.to_kpi_data_updates.
      cbn [CBBIMultiKPIResponse.data CBBIMultiKPIResponse.kpi_ids
           CBBIMultiKPIResponse.trace_id CBBIMultiKPIResponse.timestamp
           CBBIMultiKPIResponse.kpi_type CBBIMultiKPIResponse.metadata].
      rewrite Hk, Htruthy. cbn [iterate bind].
      apply collect_updates_normalized.
    + cbn [app]. apply in_normalized. exists key, (VFloat 0).
      split; [exact Hin|]. split; [|split; reflexivity].
      simpl in Hkey.
      destruct Hkey as [<- | [<- | [<- | [<- | []]]]]; simpl; now rewrite Hz.
  - eexists. eexists. split; [|split].
    + exact (parse_multi_cmc_ok repr d raw trace_id timestamp Ht Hd Hne Htr Hts).
    + unfold CMCMultiKPIResponse.to_kpi_data_updates.
      cbn [CMCMultiKPIResponse.data CMCMultiKPIResponse.kpi_ids
           CMCMultiKPIResponse.trace_id CMCMultiKPIResponse.timestamp
           CMCMultiKPIResponse.kpi_type CMCMultiKPIResponse.metadata].
      rewrite Hk, Htruthy. cbn [iterate bind].
      apply collect_updates_normalized.
    + cbn [app]. apply in_normalized. exists key, (VFloat 0).
      split; [exact Hin|]. split; [|split; reflexivity].
      simpl in Hkey.
      destruct Hkey as [<- | [<- | [<- | [<- | []]]]]; simpl; now rewrite Hz.
Qed.

Lemma missing_sub_field_emits_zero_witness :
  dict_find "cbbi-mvrv" [("cbbi-rhodl", VFloat 0.5)] = None
  /\ (forall repr, exists r out,
        parse_multi_kpi_response repr partial_cbbi_payload = Ok (CBBIMulti r)
        /\ CBBIMultiKPIResponse.to_kpi_data_updates r = Ok out
        /\ In (KPIDataUpdate.mk (VStr "trace_1") (VStr "cbbi-mvrv")
                 (VStr "2025-08-14T14:30:22Z") (VStr "cbbi-multi")
                 (VDict [("value", VFloat 0)])
                 (VList [VStr "cbbi-rhodl"; VStr "cbbi-mvrv"]) None VNone)
             out).
Proof.
  split; [reflexivity|]. intros repr.
  refine (proj1 (missing_sub_field_emits_zero repr partial_cbbi_payload
                   [("cbbi-rhodl", VFloat 0.5)]
                   (VStr "trace_1") (VStr "2025-08-14T14:30:22Z")
                   ["cbbi-rhodl"; "cbbi-mvrv"] "cbbi-mvrv"
                   eq_refl _ eq_refl eq_refl eq_refl _ eq_refl) eq_refl _).
  - discriminate.
  - simpl. tauto.
  - simpl. tauto.
Defined.

Lemma check_expected_cbbi (c : CBBIData.t) :
  WebhookValidator.check_expected
    ["cbbi-btc-price-usd"; "cbbi-rhodl"; "cbbi-mvrv"; "cbbi-confidence"]
    (CBBIData.to_dict c)
  = Ok (WebhookValidator.is_numeric (CBBIData.cbbi_btc_price_usd c)
        && WebhookValidator.is_numeric (CBBIData.cbbi_rhodl c)
        && WebhookValidator.is_numeric (CBBIData.cbbi_mvrv c)
        && WebhookValidator.is_numeric (CBBIData.cbbi_confidence c)).
Proof.
  destruct c as [a b c d]. simpl.
  destruct (WebhookValidator.is_numeric a); simpl; [|reflexivity].
  destruct (WebhookValidator.is_numeric b); simpl; [|reflexivity].
  destruct (WebhookValidator.is_numeric c); simpl; [|reflexivity].
  destruct (WebhookValidator.is_numeric d); reflexivity.
Qed.

Lemma check_expected_cmc (c : CMCData.t) :
  WebhookValidator.check_expected
    ["cmc-btc-dominance"; "cmc-eth-dominance"; "cmc-totalmarketcap-usd";
     "cmc-stablecoinmarketcap-usd"]
    (CMCData.to_dict c)
  = Ok (WebhookValidator.is_numeric (CMCData.cmc_btc_dominance c)
        && WebhookValidator.is_numeric (CMCData.cmc_eth_dominance c)
        && WebhookValidator.is_numeric (CMCData.cmc_totalmarketcap_usd c)
        && WebhookValidator.is_numeric (CMCData.cmc_stablecoinmarketcap_usd c)).
Proof.
  destruct c as [a b c d]. simpl.
  destruct (WebhookValidator.is_numeric a); simpl; [|reflexivity].
  destruct (WebhookValidator.is_numeric b); simpl; [|reflexivity].
  destruct (WebhookValidator.is_numeric c); simpl; [|reflexivity].
  destruct (WebhookValidator.is_numeric d); reflexivity.
Qed.

(** X14: what an accepted payload looks like.  [validate_cbbi_response]
    (and [validate_cmc_response] for its class) returns [True] only for a
    mapping of its class's type whose ["traceId"], ["timestamp"] and
    ["kpiIds"] are truthy and whose ["data"] is a non-empty mapping in which
    each of the four keys is absent or numeric; a payload without data is
    never accepted. *)
Theorem validate_response_sound (repr : value -> string) (d : dict) :
  (WebhookValidator.validate_cbbi_response repr d = true ->
   dict_get "kpiType" d = VStr "cbbi-multi"
   /\ truthy (dict_get "traceId" d) = true
   /\ truthy (dict_get "timestamp" d) = true
   /\ truthy (dict_get "kpiIds" d) = true
   /\ exists raw,
        dict_find "data" d = Some (VDict raw) /\ raw <> []
        /\ forall key v,
             In key ["cbbi-btc-price-usd"; "cbbi-rhodl"; "cbbi-mvrv";
                     "cbbi-confidence"] ->
             dict_find key raw = Some v ->
             WebhookValidator.is_numeric v = true)
  /\ (WebhookValidator.validate_cmc_response repr d = true ->
      dict_get "kpiType" d = VStr "cmc-multi"
      /\ truthy (dict_get "traceId" d) = true
      /\ truthy (dict_get "timestamp" d) = true
      /\ truthy (dict_get "kpiIds" d) = true
      /\ exists raw,
           dict_find "data" d = Some (VDict raw) /\ raw <> []
           /\ forall key v,
                In key ["cmc-btc-dominance"; "cmc-eth-dominance";
                        "cmc-totalmarketcap-usd"; "cmc-stablecoinmarketcap-usd"] ->
                dict_find key raw = Some v ->
                WebhookValidator.is_numeric v = true).
Proof.
  split; intros H.
  - unfold WebhookValidator.validate_cbbi_response in H.
    destruct (parse_multi_kpi_response repr d) as [[r|r]|x] eqn:Hp;
      cbn [bind WebhookValidator.caught] in H; try discriminate.
    destruct (parse_multi_cbbi_inv repr d r Hp)
      as (Ht & Htr & Hts & Hkt & Hids & Hmd & Hdata).
    destruct (WebhookValidator.check_required_attrs _) eqn:Ha;
      cbn [negb] in H; [|discriminate].
    unfold WebhookValidator.check_required_attrs in Ha. simpl in Ha.
    apply andb_true_iff in Ha. destruct Ha as [Ha1 Ha].
    apply andb_true_iff in Ha. destruct Ha as [Ha2 _].
    rewrite Hkt in H. cbn [eq_str String.eqb Ascii.eqb Bool.eqb negb] in H.
    destruct (CBBIMultiKPIResponse.data r) as [c|] eqn:Hc.
    + rewrite check_expected_cbbi in H. cbn [bind] in H.
      match type of H with
      | context [negb ?b] => destruct b eqn:Hn
      end; cbn [negb] in H; [|discriminate].
      unfold CBBIMultiKPIResponse.to_kpi_data_updates in H. rewrite Hc in H.
      destruct (truthy (CBBIMultiKPIResponse.kpi_ids r)) eqn:Hk;
        cbn [negb] in H; [|discriminate].
      destruct (Hdata c eq_refl) as (raw & Hraw & Hne & ->).
      split; [exact Ht|].
      split; [now rewrite (dict_get_find _ _ _ Htr)|].
      split; [now rewrite (dict_get_find _ _ _ Hts)|].
      split; [now rewrite <- Hids|].
      exists raw. split; [exact Hraw|]. split; [exact Hne|].
      simpl in Hn.
      apply andb_true_iff in Hn. destruct Hn as [Hn H4].
      apply andb_true_iff in Hn. destruct Hn as [Hn H3].
      apply andb_true_iff in Hn. destruct Hn as [H1 H2].
      unfold dict_get_default in H1, H2, H3, H4.
      intros key v [<- | [<- | [<- | [<- | []]]]] Hv; rewrite Hv in *; assumption.
    + unfold CBBIMultiKPIResponse.to_kpi_data_updates in H. rewrite Hc in H.
      discriminate.
  - unfold WebhookValidator.validate_cmc_response in H.
    destruct (parse_multi_kpi_response repr d) as [[r|r]|x] eqn:Hp;
      cbn [bind WebhookValidator.caught] in H; try discriminate.
    destruct (parse_multi_cmc_inv repr d r Hp)
      as (Ht & Htr & Hts & Hkt & Hids & Hmd & Hdata).
    destruct (WebhookValidator.check_required_attrs _) eqn:Ha;
      cbn [negb] in H; [|discriminate].
    unfold WebhookValidator.check_required_attrs in Ha. simpl in Ha.
    apply andb_true_iff in Ha. destruct Ha as [Ha1 Ha].
    apply andb_true_iff in Ha. destruct Ha as [Ha2 _].
    rewrite Hkt in H. cbn [eq_str String.eqb Ascii.eqb Bool.eqb negb] in H.
    destruct (CMCMultiKPIResponse.data r) as [c|] eqn:Hc.
    + rewrite check_expected_cmc in H. cbn [bind] in H.
      match type of H with
      | context [negb ?b] => destruct b eqn:Hn
      end; cbn [negb] in H; [|discriminate].
      unfold CMCMultiKPIResponse.to_kpi_data_updates in H. rewrite Hc in H.
      destruct (truthy (CMCMultiKPIResponse.kpi_ids r)) eqn:Hk;
        cbn [negb] in H; [|discriminate].
      destruct (Hdata c eq_refl) as (raw & Hraw & Hne & ->).
      split; [exact Ht|].
      split; [now rewrite (dict_get_find _ _ _ Htr)|].
      split; [now rewrite (dict_get_find _ _ _ Hts)|].
      split; [now rewrite <- Hids|].
      exists raw. split; [exact Hraw|]. split; [exact Hne|].
      simpl in Hn.
      apply andb_true_iff in Hn. destruct Hn as [Hn H4].
      apply andb_true_iff in Hn. destruct Hn as [Hn H3].
      apply andb_true_iff in Hn. destruct Hn as [H1 H2].
      unfold dict_get_default in H1, H2, H3, H4.
      intros key v [<- | [<- | [<- | [<- | []]]]] Hv; rewrite Hv in *; assumption.
    + unfold CMCMultiKPIResponse.to_kpi_data_updates in H. rewrite Hc in H.
      discriminate.
Qed.

Lemma validate_response_sound_witness :
  WebhookValidator.validate_cbbi_response (fun _ => EmptyString) partial_cbbi_payload
  = true
  /\ truthy (dict_get "kpiIds" partial_cbbi_payload) = true.
Proof.
  split; [reflexivity|].
  apply (proj1 (validate_response_sound (fun _ => EmptyString) partial_cbbi_payload)).
  reflexivity.
Defined.

Lemma numeric_default (key : string) (raw : dict) :
  (forall v, dict_find key raw = Some v -> WebhookValidator.is_numeric v = true) ->
  WebhookValidator.is_numeric (dict_get_default key (VFloat 0) raw) = true
  /\ is_none (dict_get_default key (VFloat 0) raw) = false.
Proof.
  unfold dict_get_default. intros H.
  destruct (dict_find key raw) as [v|]; [|split; reflexivity].
  specialize (H v eq_refl). destruct v; try discriminate; split; reflexivity.
Qed.

Lemma normalized_not_empty (trace_id timestamp kpi_type kpi_ids metadata : value)
    (mapping : dict) (ids : list string) (key : string) (v : value) :
  In key ids -> dict_find key mapping = Some v -> is_none v = false ->
  Nat.eqb
    (length (normalized trace_id timestamp kpi_type kpi_ids metadata mapping ids))
    0
  = false.
Proof.
  intros Hin Hf Hn.
  destruct (normalized trace_id timestamp kpi_type kpi_ids metadata mapping ids)
    eqn:E; [|reflexivity].
  exfalso.
  assert (Hu : In (emitted trace_id timestamp kpi_type kpi_ids metadata key v)
                 (normalized trace_id timestamp kpi_type kpi_ids metadata mapping ids)).
  { apply in_normalized. exists key, v. auto. }
  rewrite E in Hu. exact Hu.
Qed.

(** X15: the validator cannot see a missing sub-field.  A payload of type
    ["cbbi-multi"] or ["cmc-multi"] with truthy ["traceId"] and
    ["timestamp"], a non-empty ["data"] mapping in which each of the class's
    four keys is absent or numeric, and a ["kpiIds"] list of strings naming
    at least one of the four keys is accepted by its class's validator,
    however many of the four keys ["data"] lacks. *)
Theorem validate_response_accepts_partial (repr : value -> string) (d raw : dict)
    (trace_id timestamp : value) (ids : list string) (key : string) :
  dict_find "traceId" d = Some trace_id -> truthy trace_id = true ->
  dict_find "timestamp" d = Some timestamp -> truthy timestamp = true ->
  dict_find "data" d = Some (VDict raw) -> raw <> [] ->
  dict_find "kpiIds" d = Some (VList (map VStr ids)) ->
  In key ids ->
  (dict_get "kpiType" d = VStr "cbbi-multi" ->
   In key ["cbbi-btc-price-usd"; "cbbi-rhodl"; "cbbi-mvrv"; "cbbi-confidence"] ->
   (forall k v,
       In k ["cbbi-btc-price-usd"; "cbbi-rhodl"; "cbbi-mvrv"; "cbbi-confidence"] ->
       dict_find k raw = Some v -> WebhookValidator.is_numeric v = true) ->
   WebhookValidator.validate_cbbi_response repr d = true)
  /\ (dict_get "kpiType" d = VStr "cmc-multi" ->
      In key ["cmc-btc-dominance"; "cmc-eth-dominance"; "cmc-totalmarketcap-usd"; "cmc-stablecoinmarketcap-usd"] ->
      (forall k v,
          In k ["cmc-btc-dominance"; "cmc-eth-dominance"; "cmc-totalmarketcap-usd"; "cmc-stablecoinmarketcap-usd"] ->
          dict_find k raw = Some v -> WebhookValidator.is_numeric v = true) ->
      WebhookValidator.validate_cmc_response repr d = true).
Proof.
  intros Htr Htrt Hts Htst Hd Hne Hids Hin.
  assert (Hk : dict_get "kpiIds" d = VList (map VStr ids))
    by now apply dict_get_find.
  assert (Htruthy : negb (truthy (VList (map VStr ids))) = false).
  { destruct ids; [contradiction | reflexivity]. }
  split; intros Ht Hkey Hnum.
  - unfold WebhookValidator.validate_cbbi_response.
    rewrite (parse_multi_cbbi_ok repr d raw trace_id timestamp Ht Hd Hne Htr Hts).
    cbn [bind]. unfold WebhookValidator.check_required_attrs.
    cbn [CBBIMultiKPIResponse.trace_id CBBIMultiKPIResponse.timestamp CBBIMultiKPIResponse.kpi_type CBBIMultiKPIResponse.data forallb].
    rewrite Htrt, Htst.
    cbn [truthy String.eqb Ascii.eqb Bool.eqb negb andb eq_str].
    rewrite check_expected_cbbi. cbn [bind].
    cbn [CBBIData.cbbi_btc_price_usd CBBIData.cbbi_rhodl CBBIData.cbbi_mvrv CBBIData.cbbi_confidence].
    destruct (numeric_default "cbbi-btc-price-usd" raw) as [-> _];
      [intros v; apply Hnum; simpl; tauto|].
    destruct (numeric_default "cbbi-rhodl" raw) as [-> _];
      [intros v; apply Hnum; simpl; tauto|].
    destruct (numeric_default "cbbi-mvrv" raw) as [-> _];
      [intros v; apply Hnum; simpl; tauto|].
    destruct (numeric_default "cbbi-confidence" raw) as [-> _];
      [intros v; apply Hnum; simpl; tauto|].
    cbn [andb negb].
    unfold CBBIMultiKPIResponse.to_kpi_data_updates.
    cbn [CBBIMultiKPIResponse.data CBBIMultiKPIResponse.kpi_ids CBBIMultiKPIResponse.trace_id CBBIMultiKPIResponse.timestamp
         CBBIMultiKPIResponse.kpi_type CBBIMultiKPIResponse.metadata].
    rewrite Hk, Htruthy. cbn [iterate bind].
    rewrite collect_updates_normalized. cbn [app bind].
    rewrite (normalized_not_empty _ _ _ _ _ _ ids key
               (dict_get_default key (VFloat 0) raw)); [reflexivity | exact Hin | |].
    + simpl in Hkey.
      destruct Hkey as [<- | [<- | [<- | [<- | []]]]]; reflexivity.
    + apply numeric_default. intros v. now apply Hnum.
  - unfold WebhookValidator.validate_cmc_response.
    rewrite (parse_multi_cmc_ok repr d raw trace_id timestamp Ht Hd Hne Htr Hts).
    cbn [bind]. unfold WebhookValidator.check_required_attrs.
    cbn [CMCMultiKPIResponse.trace_id CMCMultiKPIResponse.timestamp CMCMultiKPIResponse.kpi_type CMCMultiKPIResponse.data forallb].
    rewrite Htrt, Htst.
    cbn [truthy String.eqb Ascii.eqb Bool.eqb negb andb eq_str].
    rewrite check_expected_cmc. cbn [bind].
    cbn [CMCData.cmc_btc_dominance CMCData.cmc_eth_dominance CMCData.cmc_totalmarketcap_usd CMCData.cmc_stablecoinmarketcap_usd].
    destruct (numeric_default "cmc-btc-dominance" raw) as [-> _];
      [intros v; apply Hnum; simpl; tauto|].
    destruct (numeric_default "cmc-eth-dominance" raw) as [-> _];
      [intros v; apply Hnum; simpl; tauto|].
    destruct (numeric_default "cmc-totalmarketcap-usd" raw) as [-> _];
      [intros v; apply Hnum; simpl; tauto|].
    destruct (numeric_default "cmc-stablecoinmarketcap-usd" raw) as [-> _];
      [intros v; apply Hnum; simpl; tauto|].
    cbn [andb negb].
    unfold CMCMultiKPIResponse.to_kpi_data_updates.
    cbn [CMCMultiKPIResponse.data CMCMultiKPIResponse.kpi_ids CMCMultiKPIResponse.trace_id CMCMultiKPIResponse.timestamp
         CMCMultiKPIResponse.kpi_type CMCMultiKPIResponse.metadata].
    rewrite Hk, Htruthy. cbn [iterate bind].
    rewrite collect_updates_normalized. cbn [app bind].
    rewrite (normalized_not_empty _ _ _ _ _ _ ids key
               (dict_get_default key (VFloat 0) raw)); [reflexivity | exact Hin | |].
    + simpl in Hkey.
      destruct Hkey as [<- | [<- | [<- | [<- | []]]]]; reflexivity.
    + apply numeric_default. intros v. now apply Hnum.
Qed.

Lemma validate_response_accepts_partial_witness :
  dict_find "cbbi-mvrv" [("cbbi-rhodl", VFloat 0.5)] = None
  /\ (forall repr,
        WebhookValidator.validate_cbbi_response repr partial_cbbi_payload = true).
Proof.
  split; [reflexivity|]. intros repr.
  refine (proj1 (validate_response_accepts_partial repr partial_cbbi_payload
                   [("cbbi-rhodl", VFloat 0.5)]
                   (VStr "trace_1") (VStr "2025-08-14T14:30:22Z")
                   ["cbbi-rhodl"; "cbbi-mvrv"] "cbbi-mvrv"
                   eq_refl eq_refl eq_refl eq_refl eq_refl _ eq_refl _)
            eq_refl _ _).
  - discriminate.
  - simpl. tauto.
  - simpl. tauto.
  - intros k v Hk Hv. simpl in Hv.
    destruct (String.eqb k "cbbi-rhodl"); inversion Hv. reflexivity.
Defined.

(** X16: no payload is accepted by both validators, and a payload whose
    type is neither ["cbbi-multi"] nor ["cmc-multi"] is rejected by both:
    the error [parse_multi_kpi_response] raises is swallowed into
    [False]. *)
Theorem validators_exclusive (repr : value -> string) (d : dict) :
  WebhookValidator.validate_cbbi_response repr d
  && WebhookValidator.validate_cmc_response repr d = false
  /\ (dict_get "kpiType" d <> VStr "cbbi-multi" ->
      dict_get "kpiType" d <> VStr "cmc-multi" ->
      WebhookValidator.validate_cbbi_response repr d = false
      /\ WebhookValidator.validate_cmc_response repr d = false).
Proof.
  unfold WebhookValidator.validate_cbbi_response,
    WebhookValidator.validate_cmc_response.
  split.
  - destruct (parse_multi_kpi_response repr d) as [[r|r]|x];
      cbn [bind WebhookValidator.caught].
    + apply andb_false_r.
    + reflexivity.
    + reflexivity.
  - intros H1 H2. unfold parse_multi_kpi_response.
    apply eq_str_false in H1, H2. rewrite H1, H2. split; reflexivity.
Qed.

Lemma validators_exclusive_witness :
  dict_get "kpiType" bogus_multi = VStr "bogus-multi"
  /\ (forall repr,
        WebhookValidator.validate_cbbi_response repr bogus_multi = false).
Proof.
  split; [reflexivity|]. intros repr.
  apply (proj2 (validators_exclusive repr bogus_multi)); discriminate.
Defined.

(** X17: a webhook that echoes its trigger back never validates: the
    serialized [MultiKPITrigger] has no ["data"] key, so whatever its
    fields, both validators reject it. *)
Theorem echoed_trigger_rejected (repr : value -> string) (t : MultiKPITrigger.t) :
  dict_find "data" (MultiKPITrigger.to_dict t) = None
  /\ WebhookValidator.validate_cbbi_response repr (MultiKPITrigger.to_dict t)
     = false
  /\ WebhookValidator.validate_cmc_response repr (MultiKPITrigger.to_dict t)
     = false.
Proof.
  assert (Hd : dict_find "data" (MultiKPITrigger.to_dict t) = None).
  { unfold MultiKPITrigger.to_dict.
    destruct (truthy (MultiKPITrigger.metadata t)); reflexivity. }
  split; [exact Hd|]. split.
  - unfold WebhookValidator.validate_cbbi_response.
    destruct (parse_multi_kpi_response repr (MultiKPITrigger.to_dict t))
      as [[r|r]|x] eqn:Hp; cbn [bind WebhookValidator.caught]; try reflexivity.
    destruct (parse_multi_cbbi_inv repr _ r Hp) as (_ & _ & _ & _ & _ & _ & Hdata).
    destruct (negb (WebhookValidator.check_required_attrs _)); [reflexivity|].
    destruct (negb (eq_str _ _)); [reflexivity|].
    unfold CBBIMultiKPIResponse.to_kpi_data_updates.
    destruct (CBBIMultiKPIResponse.data r) as [c|]; [|reflexivity].
    destruct (Hdata c eq_refl) as (raw & Hraw & _). congruence.
  - unfold WebhookValidator.validate_cmc_response.
    destruct (parse_multi_kpi_response repr (MultiKPITrigger.to_dict t))
      as [[r|r]|x] eqn:Hp; cbn [bind WebhookValidator.caught]; try reflexivity.
    destruct (parse_multi_cmc_inv repr _ r Hp) as (_ & _ & _ & _ & _ & _ & Hdata).
    destruct (negb (WebhookValidator.check_required_attrs _)); [reflexivity|].
    destruct (negb (eq_str _ _)); [reflexivity|].
    unfold CMCMultiKPIResponse.to_kpi_data_updates.
    destruct (CMCMultiKPIResponse.data r) as [c|]; [|reflexivity].
    destruct (Hdata c eq_refl) as (raw & Hraw & _). congruence.
Qed.

(** ** Further properties: triggers and packages *)

(** X18: each trigger round-trips through its own [to_dict] and
    [from_dict]: the result is the trigger with a falsy [metadata] replaced
    by [None], hence the trigger itself when [metadata] is [None] or
    truthy. *)
Theorem trigger_round_trip (i : IndividualKPITrigger.t) (m : MultiKPITrigger.t)
    (q : QueueTrigger.t) :
  IndividualKPITrigger.from_dict (IndividualKPITrigger.to_dict i)
  = Ok (IndividualKPITrigger.mk
          (IndividualKPITrigger.trace_id i) (IndividualKPITrigger.kpi_id i)
          (IndividualKPITrigger.timestamp i) (IndividualKPITrigger.kpi_type i)
          (or_none (IndividualKPITrigger.metadata i)))
  /\ MultiKPITrigger.from_dict (MultiKPITrigger.to_dict m)
     = Ok (MultiKPITrigger.mk
             (MultiKPITrigger.trace_id m) (MultiKPITrigger.kpi_ids m)
             (MultiKPITrigger.timestamp m) (MultiKPITrigger.kpi_type m)
             (or_none (MultiKPITrigger.metadata m)))
  /\ QueueTrigger.from_dict (QueueTrigger.to_dict q)
     = Ok (QueueTrigger.mk
             (QueueTrigger.trace_id q) (QueueTrigger.queue_type q)
             (QueueTrigger.timestamp q) (or_none (QueueTrigger.metadata q)))
  /\ (MultiKPITrigger.metadata m = VNone
      \/ truthy (MultiKPITrigger.metadata m) = true ->
      MultiKPITrigger.from_dict (MultiKPITrigger.to_dict m) = Ok m).
Proof.
  destruct i as [tr id ts ty md]. destruct m as [tr' ids' ts' ty' md'].
  destruct q as [tr'' qt'' ts'' md''].
  unfold IndividualKPITrigger.to_dict, MultiKPITrigger.to_dict,
    QueueTrigger.to_dict, or_none. simpl.
  split; [|split; [|split]].
  - destruct (truthy md); reflexivity.
  - destruct (truthy md'); reflexivity.
  - destruct (truthy md''); reflexivity.
  - intros [-> | Hmd]; [reflexivity|]. rewrite Hmd. reflexivity.
Qed.

Lemma trigger_round_trip_witness :
  MultiKPITrigger.from_dict (MultiKPITrigger.to_dict sample_trigger)
  = Ok sample_trigger.
Proof.
  apply (proj2 (proj2 (proj2
           (trigger_round_trip
              (IndividualKPITrigger.mk VNone VNone VNone VNone VNone)
              sample_trigger
              (QueueTrigger.mk VNone VNone VNone VNone))))).
  right. reflexivity.
Defined.

Ltac walk_required d pre f post Heq Hpre Hf :=
  repeat (destruct pre as [|? pre];
          [ inversion Heq; subst;
            rewrite (dict_getitem_absent _ _ Hf); reflexivity
          | inversion Heq; subst; clear Heq;
            match goal with
            | H : ?l = pre ++ f :: post |- _ => rename H into Heq
            end;
            match goal with
            | |- context [dict_getitem ?g d] =>
                destruct (dict_getitem_contains g d) as (? & -> & _);
                [apply Hpre; simpl; tauto|]; simpl
            end ]).

(** X19: the [from_dict] of a trigger fails with the raw key-lookup error
    of the first required key the mapping lacks, in the order the keys are
    read (["metadata"] is never required), and succeeds when all required
    keys are present. *)
Theorem trigger_from_dict_missing_key (d : dict) (pre post : list string)
    (f : string) :
  (forall g, In g pre -> dict_contains g d = true) ->
  dict_contains f d = false ->
  (["traceId"; "kpiId"; "timestamp"; "kpiType"] = pre ++ f :: post ->
   IndividualKPITrigger.from_dict d = Raise (KeyError f))
  /\ (["traceId"; "kpiIds"; "timestamp"; "kpiType"] = pre ++ f :: post ->
      MultiKPITrigger.from_dict d = Raise (KeyError f))
  /\ (["traceId"; "queueType"; "timestamp"] = pre ++ f :: post ->
      QueueTrigger.from_dict d = Raise (KeyError f))
  /\ (forall d',
        (forall g, In g ["traceId"; "kpiIds"; "timestamp"; "kpiType"] ->
                   dict_contains g d' = true) ->
        exists t, MultiKPITrigger.from_dict d' = Ok t
                  /\ MultiKPITrigger.metadata t = dict_get "metadata" d').
Proof.
  intros Hpre Hf. split; [|split; [|split]].
  - intros Heq. unfold IndividualKPITrigger.from_dict.
    walk_required d pre f post Heq Hpre Hf.
  - intros Heq. unfold MultiKPITrigger.from_dict.
    walk_required d pre f post Heq Hpre Hf.
  - intros Heq. unfold QueueTrigger.from_dict.
    walk_required d pre f post Heq Hpre Hf.
  - intros d' Hall. unfold MultiKPITrigger.from_dict.
    destruct (dict_getitem_contains "traceId" d') as (? & -> & _);
      [apply Hall; simpl; tauto|].
    destruct (dict_getitem_contains "kpiIds" d') as (? & -> & _);
      [apply Hall; simpl; tauto|].
    destruct (dict_getitem_contains "timestamp" d') as (? & -> & _);
      [apply Hall; simpl; tauto|].
    destruct (dict_getitem_contains "kpiType" d') as (? & -> & _);
      [apply Hall; simpl; tauto|].
    simpl. eauto.
Qed.

Lemma trigger_from_dict_missing_key_witness :
  MultiKPITrigger.from_dict trigger_without_timestamp = Raise (KeyError "timestamp").
Proof.
  assert (Hpre : forall g, In g ["traceId"; "kpiIds"] ->
                           dict_contains g trigger_without_timestamp = true).
  { intros g [<- | [<- | []]]; reflexivity. }
  apply (proj1 (proj2 (trigger_from_dict_missing_key trigger_without_timestamp
                         ["traceId"; "kpiIds"] ["kpiType"] "timestamp"
                         Hpre eq_refl))).
  reflexivity.
Defined.

(** X20: every serialized [KPIPackage] is accepted by
    [KPIDataUpdate.from_dict]: the update has the package's trace id, KPI
    id, timestamp, type, data and chart, no [kpi_ids], and the package's
    [metadata] as it is (it is always written, also when falsy); the
    analysis is dropped. *)
Theorem package_parses_as_update (p : KPIPackage.t) :
  KPIDataUpdate.from_dict (KPIPackage.to_dict p)
  = Ok (KPIDataUpdate.mk
          (KPIPackage.trace_id p) (KPIPackage.kpi_id p) (KPIPackage.timestamp p)
          (KPIPackage.kpi_type p) (KPIPackage.data p) VNone
          (KPIPackage.chart p) (KPIPackage.metadata p)).
Proof.
  destruct p as [tr id ts ty da md ch an]. unfold KPIPackage.to_dict. simpl.
  destruct ch as [[u t g]|]; destruct (truthy an); reflexivity.
Qed.
